(** * A shallow embedding of the neato SDK (Beehive and Nucleo clients)

    Go strings and byte slices are modelled as Rocq [string]s (sequences of
    8-bit [ascii] characters).  The Go standard-library pieces the SDK calls
    into and whose behaviour decides the properties below ([crypto/sha256],
    [crypto/hmac], [encoding/hex], the [encoding/json] encoder,
    [strings.ToLower], [path.Join], [net/url] query encoding and
    [net/http] header canonicalisation) are written out; the network, the
    entropy source, the credential store and the JSON parser are parameters
    of the [Runtime] section. *)

From Stdlib Require Import ZArith Ascii String Lia.
From stdpp Require Import base gmap strings list.

Set Warnings "-register-all".


(* ------------------------------------------------------------------ *)
(** ** Bytes and Go strings *)

Definition byte_of (c : ascii) : Z := Z.of_N (N_of_ascii c).
Definition char_of (z : Z) : ascii := ascii_of_N (Z.to_N z).

Definition bytes_of_string (s : string) : list Z :=
  map byte_of (list_ascii_of_string s).
Definition string_of_bytes (l : list Z) : string :=
  string_of_list_ascii (map char_of l).

(** [make([]byte, n)]: [n] zero bytes. *)
Fixpoint zeros (n : nat) : string :=
  match n with
  | O => EmptyString
  | S k => String (ascii_of_N 0) (zeros k)
  end.

Fixpoint str_take (n : nat) (s : string) : string :=
  match n, s with
  | O, _ => EmptyString
  | _, EmptyString => EmptyString
  | S k, String c r => String c (str_take k r)
  end.

Fixpoint str_drop (n : nat) (s : string) : string :=
  match n, s with
  | O, _ => s
  | _, EmptyString => EmptyString
  | S k, String _ r => str_drop k r
  end.

(** Go's built-in [copy(dst, src)] on byte slices of the same kind:
    the first [min(len dst, len src)] bytes of [dst] are replaced. *)
Definition go_copy (dst src : string) : string :=
  str_take (String.length dst) src +:+ str_drop (String.length src) dst.

Fixpoint str_map (f : ascii -> ascii) (s : string) : string :=
  match s with
  | EmptyString => EmptyString
  | String c r => String (f c) (str_map f r)
  end.

Definition xor_byte (k : N) (c : ascii) : ascii :=
  ascii_of_N (N.lxor (N_of_ascii c) k).

(* ------------------------------------------------------------------ *)
(** ** [encoding/hex] *)

Definition hextable : string := "0123456789abcdef".

Definition hex_digit (n : N) : ascii :=
  match String.get (N.to_nat n) hextable with Some c => c | None => "0"%char end.

(** [hex.Encode]: two lowercase hex digits per byte. *)
Fixpoint hex_encode (s : string) : string :=
  match s with
  | EmptyString => EmptyString
  | String c r =>
      String (hex_digit (N.shiftr (N_of_ascii c) 4))
        (String (hex_digit (N.land (N_of_ascii c) 15)) (hex_encode r))
  end.

Definition is_lower_hex_char (c : ascii) : bool :=
  (("0" <=? c)%char && (c <=? "9")%char) || (("a" <=? c)%char && (c <=? "f")%char).

Fixpoint all_chars (p : ascii -> bool) (s : string) : bool :=
  match s with
  | EmptyString => true
  | String c r => p c && all_chars p r
  end.

Definition hex_val (c : ascii) : N :=
  if (c <=? "9")%char then N_of_ascii c - 48 else N_of_ascii c - 87.

(** Inverse of [hex_encode] on its image (used to state that an encoded
    value encodes the bytes it was built from). *)
Fixpoint hex_decode (s : string) : string :=
  match s with
  | String h (String l r) =>
      String (ascii_of_N (hex_val h * 16 + hex_val l)) (hex_decode r)
  | _ => EmptyString
  end.

(* ------------------------------------------------------------------ *)
(** ** [encoding/base64] (StdEncoding, used by [encoding/json] for []byte) *)

Definition b64table : string :=
  "ABCDEFGHIJKLMNOPQRSTUVWXYZabcdefghijklmnopqrstuvwxyz0123456789+/".

Definition b64_char (n : N) : ascii :=
  match String.get (N.to_nat n) b64table with Some c => c | None => "A"%char end.

Fixpoint base64_std (s : string) : string :=
  match s with
  | EmptyString => EmptyString
  | String a EmptyString =>
      let x := N_of_ascii a in
      String (b64_char (N.shiftr x 2))
        (String (b64_char (N.shiftl (N.land x 3) 4)) "==")
  | String a (String b EmptyString) =>
      let x := N_of_ascii a in let y := N_of_ascii b in
      String (b64_char (N.shiftr x 2))
        (String (b64_char (N.lor (N.shiftl (N.land x 3) 4) (N.shiftr y 4)))
          (String (b64_char (N.shiftl (N.land y 15) 2)) "="))
  | String a (String b (String c r)) =>
      let x := N_of_ascii a in let y := N_of_ascii b in let z := N_of_ascii c in
      String (b64_char (N.shiftr x 2))
        (String (b64_char (N.lor (N.shiftl (N.land x 3) 4) (N.shiftr y 4)))
          (String (b64_char (N.lor (N.shiftl (N.land y 15) 2) (N.shiftr z 6)))
            (String (b64_char (N.land z 63)) (base64_std r))))
  end.

(* ------------------------------------------------------------------ *)
(** ** [crypto/sha256] (FIPS 180-4) *)

Module SHA256.

Definition mask32 : Z := Z.ones 32.
Definition add32 (a b : Z) : Z := Z.land (a + b) mask32.
Definition rotr (x : Z) (n : Z) : Z :=
  Z.lor (Z.shiftr x n) (Z.land (Z.shiftl x (32 - n)) mask32).
Definition Ch (x y z : Z) : Z := Z.lxor (Z.land x y) (Z.land (Z.lxor x mask32) z).
Definition Maj (x y z : Z) : Z :=
  Z.lxor (Z.lxor (Z.land x y) (Z.land x z)) (Z.land y z).
Definition Sigma0 (x : Z) : Z := Z.lxor (Z.lxor (rotr x 2) (rotr x 13)) (rotr x 22).
Definition Sigma1 (x : Z) : Z := Z.lxor (Z.lxor (rotr x 6) (rotr x 11)) (rotr x 25).
Definition sigma0 (x : Z) : Z := Z.lxor (Z.lxor (rotr x 7) (rotr x 18)) (Z.shiftr x 3).
Definition sigma1 (x : Z) : Z := Z.lxor (Z.lxor (rotr x 17) (rotr x 19)) (Z.shiftr x 10).

(** The value of a text of lowercase hex digits. *)
Definition hex_number (s : string) : Z :=
  fold_left (fun acc c => acc * 16 + Z.of_N (hex_val c))%Z (list_ascii_of_string s) 0%Z.

(** [n] big-endian 32-bit words written as 8 hex digits each. *)
Fixpoint hex_words (n : nat) (s : string) : list Z :=
  match n with
  | O => []
  | S n' => hex_number (str_take 8 s) :: hex_words n' (str_drop 8 s)
  end.

(** The round constants [_K] of [crypto/sha256]: 64 words, 8 hex digits each. *)
Definition K : list Z := Eval cbv in hex_words 64 (
  "428a2f9871374491b5c0fbcfe9b5dba53956c25b59f111f1923f82a4ab1c5ed5" +:+
  "d807aa9812835b01243185be550c7dc372be5d7480deb1fe9bdc06a7c19bf174" +:+
  "e49b69c1efbe47860fc19dc6240ca1cc2de92c6f4a7484aa5cb0a9dc76f988da" +:+
  "983e5152a831c66db00327c8bf597fc7c6e00bf3d5a7914706ca635114292967" +:+
  "27b70a852e1b21384d2c6dfc53380d13650a7354766a0abb81c2c92e92722c85" +:+
  "a2bfe8a1a81a664bc24b8b70c76c51a3d192e819d6990624f40e3585106aa070" +:+
  "19a4c1161e376c082748774c34b0bcb5391c0cb34ed8aa4a5b9cca4f682e6ff3" +:+
  "748f82ee78a5636f84c878148cc7020890befffaa4506cebbef9a3f7c67178f2").

Record state := mkState { ha : Z; hb : Z; hc : Z; hd : Z; he : Z; hf : Z; hg : Z; hh : Z }.

Definition H0 : state :=
  mkState 0x6a09e667 0xbb67ae85 0x3c6ef372 0xa54ff53a
          0x510e527f 0x9b05688c 0x1f83d9ab 0x5be0cd19.

(** Big-endian 32-bit words of a 64-byte block. *)
Fixpoint words (l : list Z) : list Z :=
  match l with
  | a :: b :: c :: d :: r =>
      Z.lor (Z.shiftl a 24) (Z.lor (Z.shiftl b 16) (Z.lor (Z.shiftl c 8) d)) :: words r
  | _ => []
  end.

(** Message schedule: extend [W0..W15] to [W0..W63]. *)
Fixpoint schedule (fuel : nat) (w : list Z) : list Z :=
  match fuel with
  | O => w
  | S f =>
      let t := length w in
      let wt := add32 (add32 (sigma1 (nth (t - 2) w 0%Z)) (nth (t - 7) w 0%Z))
                      (add32 (sigma0 (nth (t - 15) w 0%Z)) (nth (t - 16) w 0%Z)) in
      schedule f (w ++ [wt])
  end.

Definition round (s : state) (kw : Z * Z) : state :=
  let '(k, w) := kw in
  let t1 := add32 (add32 (add32 (hh s) (Sigma1 (he s))) (add32 (Ch (he s) (hf s) (hg s)) k)) w in
  let t2 := add32 (Sigma0 (ha s)) (Maj (ha s) (hb s) (hc s)) in
  mkState (add32 t1 t2) (ha s) (hb s) (hc s) (add32 (hd s) t1) (he s) (hf s) (hg s).

Definition compress (s : state) (block : list Z) : state :=
  let w := schedule 48 (words block) in
  let s' := fold_left round (combine K w) s in
  mkState (add32 (ha s) (ha s')) (add32 (hb s) (hb s')) (add32 (hc s) (hc s'))
          (add32 (hd s) (hd s')) (add32 (he s) (he s')) (add32 (hf s) (hf s'))
          (add32 (hg s) (hg s')) (add32 (hh s) (hh s')).

Fixpoint blocks (fuel : nat) (s : state) (l : list Z) : state :=
  match fuel with
  | O => s
  | S f =>
      match l with
      | [] => s
      | _ => blocks f (compress s (firstn 64 l)) (skipn 64 l)
      end
  end.

Definition be_bytes (n : nat) (x : Z) : list Z :=
  map (fun i => Z.land (Z.shiftr x (8 * Z.of_nat (n - 1 - i))) 255) (seq 0 n).

(** Padding: [0x80], zeros up to 56 mod 64, then the 64-bit bit length. *)
Definition pad (l : list Z) : list Z :=
  let len := Z.of_nat (length l) in
  l ++ [128%Z] ++ repeat 0%Z (Z.to_nat ((55 - len) mod 64)) ++ be_bytes 8 (8 * len).

Definition digest_bytes (s : state) : list Z :=
  be_bytes 4 (ha s) ++ be_bytes 4 (hb s) ++ be_bytes 4 (hc s) ++ be_bytes 4 (hd s) ++
  be_bytes 4 (he s) ++ be_bytes 4 (hf s) ++ be_bytes 4 (hg s) ++ be_bytes 4 (hh s).

Definition hash (m : string) : string :=
  let p := pad (bytes_of_string m) in
  string_of_bytes (digest_bytes (blocks (length p) H0 p)).

End SHA256.

Definition sha256_Size : nat := 32.
Definition sha256_BlockSize : nat := 64.

(** A [hash.Hash] value created by [sha256.New]: Write appends to the
    message, Sum(b) appends the digest of everything written to [b]. *)
Record digest := mkDigest { d_written : string }.

Definition sha256_New : digest := mkDigest "".
Definition digest_Write (d : digest) (p : string) : digest :=
  mkDigest (d_written d +:+ p).
Definition digest_Sum (d : digest) (b : string) : string :=
  b +:+ SHA256.hash (d_written d).
Definition digest_Reset (_ : digest) : digest := sha256_New.

(* ------------------------------------------------------------------ *)
(** ** [crypto/hmac] *)

(** The [hmac] struct of [crypto/hmac] over two [sha256.New] digests. *)
Record hmac := mkHmac {
  hm_opad : string; hm_ipad : string;
  hm_outer : digest; hm_inner : digest }.

(** [hmac.New(sha256.New, key)]. *)
Definition hmac_New (key : string) : hmac :=
  let outer := sha256_New in
  let inner := sha256_New in
  let blocksize := sha256_BlockSize in
  let ipad := zeros blocksize in
  let opad := zeros blocksize in
  let '(outer, key) :=
    if Nat.ltb blocksize (String.length key)
    then let outer := digest_Write outer key in (outer, digest_Sum outer "")
    else (outer, key) in
  let ipad := str_map (xor_byte 0x36) (go_copy ipad key) in
  let opad := str_map (xor_byte 0x5c) (go_copy opad key) in
  let inner := digest_Write inner ipad in
  mkHmac opad ipad outer inner.

Definition hmac_Write (h : hmac) (p : string) : hmac :=
  mkHmac (hm_opad h) (hm_ipad h) (hm_outer h) (digest_Write (hm_inner h) p).

(** The [Sum(in)] method of [crypto/hmac]. *)
Definition hmac_Sum (h : hmac) (in_ : string) : string :=
  let origLen := String.length in_ in
  let in_ := digest_Sum (hm_inner h) in_ in
  let outer := digest_Reset (hm_outer h) in
  let outer := digest_Write outer (hm_opad h) in
  let outer := digest_Write outer (str_drop origLen in_) in
  digest_Sum outer (str_take origLen in_).

(** HMAC-SHA256 as defined in RFC 2104 / FIPS 198-1, written from the
    standard (the reference the Nucleo signature is compared with):
    [K0] is the key, hashed first when longer than the block size, padded
    with zeros to [B = 64] bytes; the MAC is
    [H((K0 xor opad) || H((K0 xor ipad) || text))]. *)
Definition HMAC_SHA256_ref (K text : string) : string :=
  let B := 64 in
  let K0 := if Nat.ltb B (String.length K)
            then SHA256.hash K +:+ zeros (B - 32)
            else K +:+ zeros (B - String.length K) in
  SHA256.hash (str_map (xor_byte 0x5c) K0 +:+
               SHA256.hash (str_map (xor_byte 0x36) K0 +:+ text)).

(* ------------------------------------------------------------------ *)
(** ** [strings.ToLower] *)

Definition is_ascii (s : string) : bool :=
  all_chars (fun c => Nat.ltb (nat_of_ascii c) 128) s.

Definition ascii_lower (c : ascii) : ascii :=
  if (("A" <=? c)%char && (c <=? "Z")%char)
  then ascii_of_nat (nat_of_ascii c + 32) else c.

(** [strings.ToLower]: on an ASCII string, [A-Z] are mapped to [a-z]; a
    string with a byte [>= 0x80] goes through [strings.Map(unicode.ToLower, s)],
    whose Unicode tables are the parameter [unicode_lower]. *)
Definition ToLower (unicode_lower : string -> string) (s : string) : string :=
  if is_ascii s then str_map ascii_lower s else unicode_lower s.

(* ------------------------------------------------------------------ *)
(** ** [encoding/json]: values and the encoder used by [json.Marshal] *)

Definition char_str (c : ascii) : string := String c EmptyString.
Definition dquote : ascii := ascii_of_nat 34.
Definition bslash : ascii := ascii_of_nat 92.
Definition nl : string := char_str (ascii_of_nat 10).

(** A parsed JSON document. Numbers keep their literal text, and a string
    keeps its raw text: what stands between its quotes in the document,
    escape sequences not decoded. *)
Inductive json :=
| JNull
| JBool (b : bool)
| JNumber (lit : string)
| JString (raw : string)
| JArray (l : list json)
| JObject (kvs : list (string * json)).

Definition in_range (lo hi : N) (c : ascii) : bool :=
  N.leb lo (N_of_ascii c) && N.leb (N_of_ascii c) hi.

(** Length of the valid UTF-8 sequence starting a string whose first byte
    is [>= 0x80], following [utf8.DecodeRuneInString]; [0] stands for
    [(RuneError, 1)]. *)
Definition utf8_size (s : string) : nat :=
  match s with
  | String b r =>
      let x := N_of_ascii b in
      if N.leb 0xC2 x && N.leb x 0xDF then
        match r with String c1 _ => if in_range 0x80 0xBF c1 then 2 else 0 | _ => 0 end
      else if N.leb 0xE0 x && N.leb x 0xEF then
        let '(lo, hi) := if N.eqb x 0xE0 then (0xA0, 0xBF)%N
                         else if N.eqb x 0xED then (0x80, 0x9F)%N else (0x80, 0xBF)%N in
        match r with
        | String c1 (String c2 _) =>
            if in_range lo hi c1 && in_range 0x80 0xBF c2 then 3 else 0
        | _ => 0
        end
      else if N.leb 0xF0 x && N.leb x 0xF4 then
        let '(lo, hi) := if N.eqb x 0xF0 then (0x90, 0xBF)%N
                         else if N.eqb x 0xF4 then (0x80, 0x8F)%N else (0x80, 0xBF)%N in
        match r with
        | String c1 (String c2 (String c3 _)) =>
            if in_range lo hi c1 && in_range 0x80 0xBF c2 && in_range 0x80 0xBF c3
            then 4 else 0
        | _ => 0
        end
      else 0
  | EmptyString => 0
  end.

(** Bytes below [0x80] written unescaped by [json.Marshal] ([htmlSafeSet]). *)
Definition html_safe (c : ascii) : bool :=
  let x := N_of_ascii c in
  N.leb 0x20 x && N.ltb x 0x80 &&
  negb (N.eqb x 34 || N.eqb x 92 || N.eqb x 60 || N.eqb x 62 || N.eqb x 38).

Definition escape_ascii (c : ascii) : string :=
  let x := N_of_ascii c in
  if N.eqb x 34 || N.eqb x 92 then String bslash (char_str c)
  else if N.eqb x 10 then String bslash "n"
  else if N.eqb x 13 then String bslash "r"
  else if N.eqb x 9 then String bslash "t"
  else String bslash ("u00" +:+ String (hex_digit (N.shiftr x 4))
                                  (char_str (hex_digit (N.land x 15)))).

(** The loop of [encodeState.string] (with [escapeHTML = true]). *)
Fixpoint json_string_body (fuel : nat) (s : string) : string :=
  match fuel with
  | O => EmptyString
  | S f =>
      match s with
      | EmptyString => EmptyString
      | String b r =>
          if N.ltb (N_of_ascii b) 0x80 then
            if html_safe b then String b (json_string_body f r)
            else escape_ascii b +:+ json_string_body f r
          else
            match utf8_size s with
            | O => String bslash "ufffd" +:+ json_string_body f r
            | n =>
                match s with
                | String e2 (String e80 (String c _)) =>
                    if N.eqb (N_of_ascii e2) 0xE2 && N.eqb (N_of_ascii e80) 0x80 &&
                       (N.eqb (N_of_ascii c) 0xA8 || N.eqb (N_of_ascii c) 0xA9)
                    then String bslash ("u202" +:+ char_str (hex_digit (N.land (N_of_ascii c) 15)))
                           +:+ json_string_body f (str_drop 3 s)
                    else str_take n s +:+ json_string_body f (str_drop n s)
                | _ => str_take n s +:+ json_string_body f (str_drop n s)
                end
            end
      end
  end.

Definition json_string (s : string) : string :=
  String dquote (json_string_body (String.length s) s +:+ char_str dquote).

Fixpoint digits_of (fuel : nat) (n : N) (acc : string) : string :=
  match fuel with
  | O => acc
  | S f =>
      let acc := String (ascii_of_N (48 + N.modulo n 10)) acc in
      if N.ltb n 10 then acc else digits_of f (N.div n 10) acc
  end.

(** [strconv.AppendInt(b, v, 10)]. *)
Definition json_int (z : Z) : string :=
  let n := Z.to_N (Z.abs z) in
  let d := digits_of (S (N.size_nat n)) n EmptyString in
  if Z.ltb z 0 then "-" +:+ d else d.

Definition json_bool (b : bool) : string := if b then "true" else "false".

Definition join (sep : string) (l : list string) : string := String.concat sep l.

Definition json_fields (fs : list (string * string)) : string :=
  "{" +:+ join "," (map (fun kv => json_string kv.1 +:+ ":" +:+ kv.2) fs) +:+ "}".

(** A Go slice: [None] is the nil slice (encoded as [null]). *)
Definition json_slice {A} (enc : A -> string) (s : option (list A)) : string :=
  match s with
  | None => "null"
  | Some l => "[" +:+ join "," (map enc l) +:+ "]"
  end.

(* ------------------------------------------------------------------ *)
(** ** The Go types of the SDK *)

(** [time.Time], kept as the instant it denotes. *)
Record Time := mkTime { t_sec : Z; t_nsec : Z; t_offset : Z }.
Definition zero_Time : Time := mkTime (-62135596800) 0 0.

Record Robot := mkRobot {
  Serial : string; Prefix : string; Name : string; Model : string;
  SecretKey : string; PurchasedAt : Time; LinkedAt : Time;
  Traits : option (list string) }.

Record event := mkEvent {
  event_Mode : Z; event_Day : Z; event_StartTime : string; event_BoundaryID : string }.

Record Params := mkParams {
  Category : Z; Mode : Z; Modifier : Z;
  RobotSounds : bool; DirtbinAlert : bool; AllAlerts : bool; Leds : bool;
  ButtonClicks : bool;
  DirtbinAlertReminderInterval : Z; FilterChangeReminderInterval : Z;
  BrushChangeReminderInterval : Z;
  Clock24H : bool; Locale : string; AvailableLocales : option (list string);
  NavigationMode : Z; BoundaryID : string; SpotWidth : Z; SpotHeight : Z;
  Events : option (list event) }.

(** [type reqID []byte]; [None] is the nil slice. *)
Definition reqID := option string.

(** [string(id)]: the nil slice converts to the empty string. *)
Definition reqID_string (id : reqID) : string :=
  match id with None => EmptyString | Some s => s end.

Record request := mkRequest { ReqID : reqID; Cmd : string; Params' : option Params }.

(** [json.Marshal] of a [reqID]: a []byte is encoded as a base64 string. *)
Definition json_reqID (id : reqID) : string :=
  match id with
  | None => "null"
  | Some b => String dquote (base64_std b +:+ char_str dquote)
  end.

Definition json_event (e : event) : string :=
  json_fields [("mode", json_int (event_Mode e)); ("day", json_int (event_Day e));
               ("startTime", json_string (event_StartTime e));
               ("boundaryId", json_string (event_BoundaryID e))].

Definition json_Params (p : Params) : string :=
  json_fields [
    ("category", json_int (Category p)); ("mode", json_int (Mode p));
    ("modifier", json_int (Modifier p));
    ("robotSounds", json_bool (RobotSounds p)); ("dirtbinAlert", json_bool (DirtbinAlert p));
    ("allAlerts", json_bool (AllAlerts p)); ("leds", json_bool (Leds p));
    ("buttonClicks", json_bool (ButtonClicks p));
    ("dirtbinAlertReminderInterval", json_int (DirtbinAlertReminderInterval p));
    ("filterChangeReminderInterval", json_int (FilterChangeReminderInterval p));
    ("brushChangeReminderInterval", json_int (BrushChangeReminderInterval p));
    ("clock24h", json_bool (Clock24H p)); ("locale", json_string (Locale p));
    ("availableLocales", json_slice json_string (AvailableLocales p));
    ("navigationMode", json_int (NavigationMode p));
    ("boundaryId", json_string (BoundaryID p));
    ("spotWidth", json_int (SpotWidth p)); ("spotHeight", json_int (SpotHeight p));
    ("events", json_slice json_event (Events p))].

(** [json.Marshal(req)] for a [*request]; [params] carries [omitempty], so a
    nil [*Params] is left out. The encoder cannot fail on these types. *)
Definition json_Marshal_request (r : request) : string :=
  json_fields ([("reqId", json_reqID (ReqID r)); ("cmd", json_string (Cmd r))] ++
               match Params' r with
               | None => []
               | Some p => [("params", json_Params p)]
               end).

(* ------------------------------------------------------------------ *)
(** ** Nucleo request signing ([nucleo.go]) *)

Section Signing.
Variable unicode_lower : string -> string.

(** The method [signingString] of [*Robot]:
    [fmt.Sprintf("%s\n%s\n%s", strings.ToLower(r.Serial), ts, a)]. *)
Definition signingString (r : Robot) (req : request) (ts : string) : string :=
  let a := json_Marshal_request req in
  ToLower unicode_lower (Serial r) +:+ nl +:+ ts +:+ nl +:+ a.

(** The method [sign] of [*Robot]: an HMAC-SHA256 keyed by [r.SecretKey] over the
    signing string. *)
Definition sign (r : Robot) (req : request) (ts : string) : string :=
  let h := hmac_New (SecretKey r) in
  let h := hmac_Write h (signingString r req ts) in
  hmac_Sum h "".

End Signing.

(* ------------------------------------------------------------------ *)
(** ** Errors *)

(** A Go [(T, error)] pair: either a value or an error (its message). *)
Inductive result (A : Type) :=
| Ok (a : A)
| Err (e : string).
Arguments Ok {A} a.
Arguments Err {A} e.

(* ------------------------------------------------------------------ *)
(** ** [net/url] and [path] *)

Record URL := mkURL { Scheme : string; Host : string; Path : string; RawQuery : string }.

(** [url.Values]. *)
Abbreviation Values := (gmap string (list string)).

Definition is_alnum (c : ascii) : bool :=
  (("a" <=? c)%char && (c <=? "z")%char) || (("A" <=? c)%char && (c <=? "Z")%char) ||
  (("0" <=? c)%char && (c <=? "9")%char).

Definition upper_hex : string := "0123456789ABCDEF".
Definition upper_hex_digit (n : N) : ascii :=
  match String.get (N.to_nat n) upper_hex with Some c => c | None => "0"%char end.

(** [url.QueryEscape]: [shouldEscape(c, encodeQueryComponent)]; a space
    becomes [+]. *)
Fixpoint QueryEscape (s : string) : string :=
  match s with
  | EmptyString => EmptyString
  | String c r =>
      if is_alnum c || (c =? "-")%char || (c =? "_")%char || (c =? ".")%char || (c =? "~")%char
      then String c (QueryEscape r)
      else if (c =? " ")%char then String "+"%char (QueryEscape r)
      else String "%"%char (String (upper_hex_digit (N.shiftr (N_of_ascii c) 4))
                             (String (upper_hex_digit (N.land (N_of_ascii c) 15))
                               (QueryEscape r)))
  end.

Fixpoint insert_key (k : string) (l : list string) : list string :=
  match l with
  | [] => [k]
  | k' :: r => if String.leb k k' then k :: l else k' :: insert_key k r
  end.

(** [sort.Strings] (bytewise order). *)
Definition sort_Strings (l : list string) : list string := fold_right insert_key [] l.

(** [url.Values.Encode]: keys sorted, [key=value] pairs joined by [&]. *)
Definition Values_Encode (v : Values) : string :=
  let keys := sort_Strings (map fst (map_to_list v)) in
  join "&" (concat (map (fun k =>
     map (fun x => QueryEscape k +:+ "=" +:+ QueryEscape x)
         (default [] (v !! k))) keys)).

Fixpoint split_on (sep : ascii) (s : string) : list string :=
  match s with
  | EmptyString => [EmptyString]
  | String c r =>
      let rest := split_on sep r in
      if (c =? sep)%char then EmptyString :: rest
      else match rest with
           | h :: t => String c h :: t
           | [] => [char_str c]
           end
  end.

(** The lexical rules of [path.Clean], applied to the [/]-separated
    elements: empty and [.] elements are dropped, [..] removes the
    preceding non-[..] element (or is dropped at the root). *)
Definition clean_step (rooted : bool) (stack : list string) (e : string) : list string :=
  if String.eqb e "" || String.eqb e "." then stack
  else if String.eqb e ".." then
    match stack with
    | top :: rest => if String.eqb top ".." then ".." :: stack else rest
    | [] => if rooted then [] else [".."]
    end
  else e :: stack.

Definition path_Clean (p : string) : string :=
  match p with
  | EmptyString => "."
  | String c _ =>
      let rooted := (c =? "/")%char in
      let stack := fold_left (clean_step rooted) (split_on "/"%char p) [] in
      let body := join "/" (rev stack) in
      if rooted then "/" +:+ body
      else if String.eqb body "" then "." else body
  end.

(** [path.Join]: the elements from the first non-empty one, joined with
    [/] and cleaned; [""] when all are empty. *)
Fixpoint path_Join (elem : list string) : string :=
  match elem with
  | [] => EmptyString
  | e :: r => if String.eqb e "" then path_Join r else path_Clean (join "/" (e :: r))
  end.

(** A single path element that [path.Clean] keeps as it is: non-empty,
    not [.] or [..], and without [/]. *)
Definition clean_segment (s : string) : bool :=
  negb (String.eqb s "") && negb (String.eqb s ".") && negb (String.eqb s "..") &&
  all_chars (fun c => negb (c =? "/")%char) s.

(* ------------------------------------------------------------------ *)
(** ** [net/http] requests and headers *)

Abbreviation Header := (gmap string (list string)).

(** Bytes allowed in a header field name ([isTokenTable]). *)
Definition is_token_char (c : ascii) : bool :=
  is_alnum c ||
  match String.index 0 (char_str c) "!#$%&'*+-.^_`|~" with Some _ => true | None => false end.

Fixpoint canon_from (upper : bool) (s : string) : string :=
  match s with
  | EmptyString => EmptyString
  | String c r =>
      let c' := if upper && (("a" <=? c)%char && (c <=? "z")%char)
                then ascii_of_nat (nat_of_ascii c - 32)
                else if negb upper && (("A" <=? c)%char && (c <=? "Z")%char)
                then ascii_of_nat (nat_of_ascii c + 32) else c in
      String c' (canon_from (c =? "-")%char r)
  end.

(** [textproto.CanonicalMIMEHeaderKey]: a key with a non-token byte is
    returned unchanged; otherwise the first letter and every letter after a
    hyphen are upper-cased, the others lower-cased. *)
Definition CanonicalMIMEHeaderKey (s : string) : string :=
  if all_chars is_token_char s then canon_from true s else s.

(** [http.Header.Set]. *)
Definition Header_Set (h : Header) (k v : string) : Header :=
  <[CanonicalMIMEHeaderKey k := [v]]> h.

(** [http.Header.Get]. *)
Definition Header_Get (h : Header) (k : string) : string :=
  match h !! CanonicalMIMEHeaderKey k with
  | Some (v :: _) => v
  | _ => EmptyString
  end.

Record Request := mkRequest' {
  Method : string; URL' : URL; Header' : Header; Body : string }.

Definition set_header (r : Request) (k v : string) : Request :=
  mkRequest' (Method r) (URL' r) (Header_Set (Header' r) k v) (Body r).

(** The [*url.URL] that [http.NewRequest] obtains by parsing
    [u.String()]: [String] writes a [/] before a relative path when there
    is a host, and [url.Parse] gives the other components back. *)
Definition url_roundtrip (u : URL) : URL :=
  let p := match Path u with
           | EmptyString => EmptyString
           | String c _ => if (c =? "/")%char then Path u else "/" +:+ Path u
           end in
  mkURL (Scheme u) (Host u) p (RawQuery u).

(** [http.NewRequest(method, u.String(), body)]. *)
Definition NewRequest (method : string) (u : URL) (body : string) : result Request :=
  let method := if String.eqb method "" then "GET" else method in
  if negb (all_chars is_token_char method)
  then Err ("net/http: invalid method " +:+ json_string method)
  else Ok (mkRequest' method (url_roundtrip u) ∅ body).

(* ------------------------------------------------------------------ *)
(** ** Package constants *)

Definition scheme : string := "https".
Definition nucleoAcceptHeader : string := "application/vnd.neato.nucleo.v1".
Definition nucleoHost : string := "nucleo.neatocloud.com:4443".
Definition timeFormat : string := "Mon, 02 Jan 2006 15:04:05 MST".
Definition idLength : nat := 16.
Definition beehiveAcceptHeader : string := "application/vnd.neato.beehive.v1+json".
Definition beehiveHost : string := "beehive.neatocloud.com".
Definition platform : string := "ios".
Definition tokenLength : nat := 32.
Definition credentialsPassRE : string := ".*neatorobotics.*/.*".

(* ------------------------------------------------------------------ *)
(** ** The Nucleo [Response] *)

Record details := mkDetails {
  IsCharging : bool; IsDocked : bool; DockHasBeenSeen : bool; Charge : Z;
  IsScheduleEnabled : bool }.
Record availableCommands := mkAvailableCommands {
  Start : bool; Stop : bool; Pause : bool; Resume : bool; GoToBase : bool }.
Record availableServices := mkAvailableServices {
  HouseCleaning : string; SpotCleaning : string; ManualCleaning : string; Schedule : string }.
Record meta := mkMeta { ModelName : string; Firmware : string }.

Module Resp.
(** [Response]; the telemetry records [data] and [cleaning] and the
    [interface{}] error are kept as JSON values. *)
Record Response := mkResponse {
  Version : Z; ReqID : reqID; Result : string; Data : json; State : Z; Action : Z;
  Error : json; Alert : string; Cleaning : json; Details : details;
  AvailableCommands : availableCommands; AvailableServices : availableServices;
  Meta : meta }.
End Resp.
Import Resp (Response).

(** The method [checkID] of [*Response]. *)
Definition checkID (resp : Response) (a : request) : result Response :=
  if negb (String.eqb (reqID_string (Resp.ReqID resp)) (reqID_string (ReqID a)))
  then Err "conflicting ReqID value"
  else Ok resp.

(** [credentials]. *)
Record credentials := mkCredentials { Username : string; Password : string }.

(** [token]; a [*token] is [option token]. *)
Record token := mkToken { value : string }.

(** The method [String] of [*token]. *)
Definition token_String (t : option token) : string :=
  match t with Some t => value t | None => EmptyString end.

(* ------------------------------------------------------------------ *)
(** ** A concrete runtime: a local server answering [{}], an entropy source
    returning zero bytes, and a credential store with one entry *)

Module Fixture.
Definition Client : Type := unit.
Definition zero_Client : Client := tt.
Definition empty_object : string := "{" +:+ "}".
Definition Do (_ : Client) (_ : Request) : result string := Ok empty_object.
Definition rand_read (_ : nat) : result (nat -> ascii) := Ok (fun _ => ascii_of_nat 0).
Definition pass_Get (_ : string) : result credentials := Ok (mkCredentials "a@b.com" "secret").
Definition json_parse (b : string) : result json :=
  if String.eqb b empty_object then Ok (JObject []) else Err "invalid character".
(** String literals without escape sequences. *)
Definition json_unquote (raw : string) : string := raw.
Definition fold_match (a b : string) : bool :=
  String.eqb (str_map ascii_lower a) (str_map ascii_lower b).
Definition parse_RFC3339 (_ : string) : result Time := Ok zero_Time.
Definition now : Time := zero_Time.
Definition Time_Format (_ : Time) (_ : string) : string := "Mon, 02 Jan 2006 15:04:05 MST".
Definition unicode_lower (s : string) : string := s.
Definition response (id : reqID) : Response :=
  Resp.mkResponse 1 id "ok" JNull 0 0 JNull "" JNull
    (mkDetails false true true 100 false) (mkAvailableCommands true false false false false)
    (mkAvailableServices "basic-1" "basic-1" "" "basic-1") (mkMeta "BotVacConnected" "3.0").
(** A robot echoing the identifier drawn from the zero-byte source. *)
Definition decode_Response (_ : string) : result Response :=
  Ok (response (Some (hex_encode (zeros 16)))).
Definition robot (serial : string) : Robot :=
  mkRobot serial "" "" "" "deadbeef" zero_Time zero_Time None.
End Fixture.

(* ------------------------------------------------------------------ *)
(** ** The SDK's operations, over the runtime they call into *)

Section Runtime.

(** [http.Client] values, and the zero value [http.Client{}]. *)
Variable Client : Type.
Variable zero_Client : Client.
(** [client.Do(req)]: the body of the response, or a transport error. *)
Variable Do : Client -> Request -> result string.
(** [crypto/rand.Read] into a buffer of [n] bytes: an error, or the byte
    written at each index. *)
Variable rand_read : nat -> result (nat -> ascii).
(** [pass.Get] of [github.com/richlj/passlib]: the credentials of the
    single entry matching a pattern. *)
Variable pass_Get : string -> result credentials.
(** The JSON reader of [json.Decoder.Decode]: the first value of a body. *)
Variable json_parse : string -> result json.
(** The value of a JSON string literal from its raw text ([unquote] of
    [encoding/json]: escapes decoded, invalid UTF-8 replaced by U+FFFD). *)
Variable json_unquote : string -> string.
(** Case-insensitive key matching of [encoding/json] (field name, key). *)
Variable fold_match : string -> string -> bool.
(** [time.Parse(time.RFC3339, _)] as used by [Time.UnmarshalJSON]. *)
Variable parse_RFC3339 : string -> result Time.
(** [time.Now] and [Time.Format]. *)
Variable now : Time.
Variable Time_Format : Time -> string -> string.
(** [strings.Map(unicode.ToLower, _)], the non-ASCII path of [strings.ToLower]. *)
Variable unicode_lower : string -> string.
(** Decoding of the bodies of the Beehive data calls and of Nucleo replies. *)
Variables User Map MapsResult : Type.
Variable decode_User : string -> result User.
Variable decode_Robots : string -> result (list Robot).
Variable decode_Map : string -> result Map.
Variable decode_Maps : string -> result (list Map).
Variable decode_MapsResult : string -> result MapsResult.
Variable decode_Response : string -> result Response.

(** The requests handed to [client.Do], with the client used, and the
    outcome. *)
Definition M (A : Type) : Type := (list (Client * Request) * result A)%type.

Definition ret {A} (a : A) : M A := ([], Ok a).
Definition lift {A} (r : result A) : M A := ([], r).
Definition bind {A B} (m : M A) (f : A -> M B) : M B :=
  match m with
  | (tr, Ok a) => let '(tr', r) := f a in (tr ++ tr', r)
  | (tr, Err e) => (tr, Err e)
  end.

Local Notation "'let*' x ':=' m 'in' k" := (bind m (fun x => k))
  (at level 200, x name, m at level 100, right associativity).

(** [client.Do(req)], recorded. *)
Definition send (c : Client) (req : Request) : M string := ([(c, req)], Do c req).

(** [Session]: the unexported [client] is not a JSON field. *)
Record Session := mkSession { AccessToken : string; CurrentTime : Time; client : Client }.

Definition zero_Session : Session := mkSession "" zero_Time zero_Client.

(* ---- random tokens and identifiers ---- *)

(** [raw := make([]byte, n); rand.Read(raw)]. *)
Definition rand_Read (n : nat) : result string :=
  match rand_read n with
  | Ok f => Ok (string_of_list_ascii (map f (seq 0 n)))
  | Err e => Err e
  end.

(** [newToken] ([beehive.go]). *)
Definition newToken : result (option token) :=
  match rand_Read tokenLength with
  | Err e => Err e
  | Ok key => let hexKey := hex_encode key in Ok (Some (mkToken hexKey))
  end.

(** [newID] ([nucleo.go]). *)
Definition newID : result reqID :=
  match rand_Read idLength with
  | Err e => Err e
  | Ok raw => let result := hex_encode raw in Ok (Some result)
  end.

(** [newRequest] ([nucleo.go]). *)
Definition newRequest (cmd : string) (p : option Params) : result request :=
  match newID with
  | Err e => Err e
  | Ok id => Ok (mkRequest id cmd p)
  end.

(* ---- Nucleo dispatch ([nucleo.go]) ---- *)

(** The method [authorization] of [*request]. *)
Definition authorization (r : request) (o : Robot) (req : Request) (ts : string)
  : result Request :=
  Ok (set_header req "Authorization"
        ("NEATOAPP " +:+ hex_encode (sign unicode_lower o r ts))).

(** The method [addHeaders] of [*request]. *)
Definition addHeaders (r : request) (req : Request) (o : Robot) : result Request :=
  let ts := Time_Format now timeFormat in
  let req := set_header req "Accept" nucleoAcceptHeader in
  let req := set_header req "Date" ts in
  authorization r o req ts.

(** The URL [exec] posts to. *)
Definition messagesURL (r : Robot) : URL :=
  mkURL scheme nucleoHost (path_Join ["vendors/neato/robots"; Serial r; "messages"]) "".

(** The method [exec] of [*Robot] up to the decoded response. *)
Definition exec_roundtrip (r : Robot) (a : request) : M Response :=
  let b := json_Marshal_request a in
  let* req := lift (NewRequest "POST" (messagesURL r) b) in
  let* req := lift (addHeaders a req r) in
  let client := zero_Client in
  let* body := send client req in
  lift (decode_Response body).

(** The method [exec] of [*Robot]. *)
Definition exec (r : Robot) (a : request) : M Response :=
  let* result := exec_roundtrip r a in
  lift (checkID result a).

(** The command wrappers, e.g. [FindMe] and [GetRobotInfo]: a fresh
    request for the named command, then [exec]. *)
Definition command (cmd : string) (r : Robot) (p : option Params) : M Response :=
  let* req := lift (newRequest cmd p) in
  exec r req.

(* ---- Beehive sessions ([beehive.go]) ---- *)

(** [getCredentialsPass] ([getCredentials] calls it). *)
Definition getCredentials : result credentials :=
  match pass_Get credentialsPassRE with
  | Err e => Err e
  | Ok a => Ok (mkCredentials (Username a) (Password a))
  end.

(** The method [queryValues] of [*token]. *)
Definition queryValues (t : option token) : result Values :=
  match getCredentials with
  | Err e => Err e
  | Ok c =>
      Ok (<["platform" := [platform]]> (<["token" := [token_String t]]>
          (<["email" := [Username c]]> (<["password" := [Password c]]> ∅))))
  end.

Inductive session_field := F_AccessToken | F_CurrentTime.

(** The [Session] field a JSON key is stored in: an exact name match
    first, otherwise the first field (in declaration order) whose name
    matches case-insensitively. *)
Definition session_field_of (k : string) : option session_field :=
  if String.eqb k "access_token" then Some F_AccessToken
  else if String.eqb k "current_time" then Some F_CurrentTime
  else if fold_match "access_token" k then Some F_AccessToken
  else if fold_match "current_time" k then Some F_CurrentTime
  else None.

Definition save_error (saved : option string) (e : string) : option string :=
  match saved with Some _ => saved | None => Some e end.

(** [decodeState.object] on a [*Session]: members are stored in order; a
    string member is unquoted into [AccessToken]; a member of the wrong JSON
    type for [AccessToken] is skipped and its error saved (the first one is
    returned at the end); [Time.UnmarshalJSON] receives the raw literal and
    parses the text between its quotes, escapes not decoded, and its errors
    stop the decoding; JSON [null] leaves a field as it is. *)
Fixpoint decode_members (kvs : list (string * json)) (s : Session) (saved : option string)
  : result unit * Session :=
  match kvs with
  | [] => (match saved with None => Ok tt | Some e => Err e end, s)
  | (k, v) :: rest =>
      match session_field_of k with
      | None => decode_members rest s saved
      | Some F_AccessToken =>
          match v with
          | JString a => decode_members rest (mkSession (json_unquote a) (CurrentTime s) (client s)) saved
          | JNull => decode_members rest s saved
          | _ => decode_members rest s
                   (save_error saved "json: cannot unmarshal into Go struct field Session.access_token of type string")
          end
      | Some F_CurrentTime =>
          match v with
          | JNull => decode_members rest s saved
          | JString t =>
              match parse_RFC3339 t with
              | Ok tm => decode_members rest (mkSession (AccessToken s) tm (client s)) saved
              | Err e => (Err e, s)
              end
          | _ => (Err "Time.UnmarshalJSON: input is not a JSON string", s)
          end
      end
  end.

(** [json.NewDecoder(body).Decode(s)] for a [*Session] [s]: the value
    pointed to is updated in place. *)
Definition Decode_Session (body : string) (s : Session) : result unit * Session :=
  match json_parse body with
  | Err e => (Err e, s)
  | Ok JNull => (Ok tt, s)
  | Ok (JObject kvs) => decode_members kvs s None
  | Ok _ => (Err "json: cannot unmarshal into Go value of type neato.Session", s)
  end.

Definition sessionsURL (v : Values) : URL :=
  mkURL scheme beehiveHost "sessions" (Values_Encode v).

(** [NewSession]. *)
Definition NewSession : M Session :=
  let* t := lift newToken in
  let* v := lift (queryValues t) in
  let* req := lift (NewRequest "POST" (sessionsURL v) "") in
  let req := set_header req "Accept" nucleoAcceptHeader in
  let client := zero_Client in
  let* body := send client req in
  let '(r, result) := Decode_Session body zero_Session in
  match r with
  | Err e => lift (Err e)
  | Ok _ => ret result
  end.

(** The method [Refresh] of [*Session] up to the response body. *)
Definition refresh_request (s : Session) : M string :=
  let* t := lift newToken in
  let* v := lift (queryValues t) in
  let* req := lift (NewRequest "POST" (sessionsURL v) "") in
  let req := set_header req "Accept" nucleoAcceptHeader in
  send (client s) req.

(** The method [Refresh] of [*Session]: the requests sent, the error, and
    the session value afterwards. *)
Definition Refresh (s : Session) : list (Client * Request) * result unit * Session :=
  match refresh_request s with
  | (tr, Err e) => (tr, Err e, s)
  | (tr, Ok body) => let '(r, s') := Decode_Session body s in (tr, r, s')
  end.

(* ---- Beehive data calls ---- *)

(** The method [bearer] of [*Session]. *)
Definition bearer (s : Session) : string := "Bearer " +:+ AccessToken s.

(** The method [setHeaders] of [*Session]. *)
Definition setHeaders (s : Session) (req : Request) : Request :=
  let req := set_header req "Accept" beehiveAcceptHeader in
  set_header req "Authorization" (bearer s).

(** The method [exec] of [*Session]. *)
Definition session_exec (s : Session) (method path : string) : M string :=
  let* req := lift (NewRequest method (mkURL "https" beehiveHost path "") "") in
  let req := setHeaders s req in
  send (client s) req.

Definition GetRobotMap (s : Session) (robot id : string) : M Map :=
  let* r := session_exec s "GET" (path_Join ["users/me/robots"; robot; "maps"; id]) in
  lift (decode_Map r).

Definition GetUser (s : Session) : M User :=
  let* r := session_exec s "GET" "users/me" in
  lift (decode_User r).

Definition ListRobots (s : Session) : M (list Robot) :=
  let* r := session_exec s "GET" "users/me/robots" in
  lift (decode_Robots r).

Definition ListRobotMaps (s : Session) (robot : string) : M MapsResult :=
  let* r := session_exec s "GET" (path_Join ["users/me/robots"; robot; "maps"]) in
  lift (decode_MapsResult r).

Definition ListRobotPersistentMaps (s : Session) (robot : string) : M (list Map) :=
  let* r := session_exec s "GET" (path_Join ["users/me/robots"; robot; "persistent_maps"]) in
  lift (decode_Maps r).

(* ---- the decoded session, member by member ---- *)

Definition field_is (f : session_field) (k : string) : bool :=
  match session_field_of k, f with
  | Some F_AccessToken, F_AccessToken => true
  | Some F_CurrentTime, F_CurrentTime => true
  | _, _ => false
  end.

(** The raw text of the last string member of an object stored in field [f]. *)
Fixpoint last_string (f : session_field) (kvs : list (string * json)) : option string :=
  match kvs with
  | [] => None
  | (k, v) :: rest =>
      match last_string f rest with
      | Some x => Some x
      | None => if field_is f k then match v with JString a => Some a | _ => None end else None
      end
  end.

Definition time_of (t : string) : option Time :=
  match parse_RFC3339 t with Ok tm => Some tm | Err _ => None end.

(** A member the [Session] decoder accepts without error: a string (a
    valid RFC 3339 time for [current_time]) or [null] for a field, anything
    for an unknown key. *)
Definition member_ok (kv : string * json) : Prop :=
  match session_field_of kv.1, kv.2 with
  | None, _ => True
  | Some _, JNull => True
  | Some F_AccessToken, JString _ => True
  | Some F_CurrentTime, JString t => exists tm, parse_RFC3339 t = Ok tm
  | Some _, _ => False
  end.

(** The request [exec] hands to the HTTP client. *)
Definition exec_request (r : Robot) (a : request) : Request :=
  let ts := Time_Format now timeFormat in
  let req := mkRequest' "POST" (url_roundtrip (messagesURL r)) ∅ (json_Marshal_request a) in
  let req := set_header req "Accept" nucleoAcceptHeader in
  let req := set_header req "Date" ts in
  set_header req "Authorization" ("NEATOAPP " +:+ hex_encode (sign unicode_lower r a ts)).

(* ================================================================== *)
(** * Properties *)

(* ---- strings ---- *)

(* ---- the command methods of [*Robot] ([nucleo.go]) ---- *)

Definition FindMe (r : Robot) (a : option Params) : M Response := command "findMe" r a.
Definition GetGeneralInfo (r : Robot) (a : option Params) : M Response := command "getGeneralInfo" r a.
Definition StartCleaning (r : Robot) (a : option Params) : M Response := command "startCleaning" r a.
Definition StopCleaning (r : Robot) (a : option Params) : M Response := command "stopCleaning" r a.
Definition PauseCleaning (r : Robot) (a : option Params) : M Response := command "pauseCleaning" r a.
Definition ResumeCleaning (r : Robot) (a : option Params) : M Response := command "resumeCleaning" r a.
Definition SendToBase (r : Robot) (a : option Params) : M Response := command "sendToBase" r a.
Definition GetLocalStats (r : Robot) (a : option Params) : M Response := command "getLocalStats" r a.
Definition GetRobotManualCleaningInfo (r : Robot) (a : option Params) : M Response := command "getRobotManualCleaningInfo" r a.
Definition SetMapBoundaries (r : Robot) (a : option Params) : M Response := command "setMapBoundaries" r a.
Definition GetMapBoundaries (r : Robot) (a : option Params) : M Response := command "getMapBoundaries" r a.
Definition StartPersistentMapExploration (r : Robot) (a : option Params) : M Response := command "startPersistentMapExploration" r a.
Definition GetPreferences (r : Robot) (a : option Params) : M Response := command "getPreferences" r a.
Definition SetPreferences (r : Robot) (a : option Params) : M Response := command "setPreferences" r a.
Definition GetSchedule (r : Robot) (a : option Params) : M Response := command "getSchedule" r a.
Definition SetSchedule (r : Robot) (a : option Params) : M Response := command "setSchedule" r a.
Definition EnableSchedule (r : Robot) (a : option Params) : M Response := command "enableSchedule" r a.
Definition DisableSchedule (r : Robot) (a : option Params) : M Response := command "disableSchedule" r a.
Definition GetRobotInfo (r : Robot) (a : option Params) : M Response := command "getRobotInfo" r a.

(** The command methods with the command name each one sends. *)
Definition robot_commands : list (string * (Robot -> option Params -> M Response)) :=
  [("findMe", FindMe);
   ("getGeneralInfo", GetGeneralInfo);
   ("startCleaning", StartCleaning);
   ("stopCleaning", StopCleaning);
   ("pauseCleaning", PauseCleaning);
   ("resumeCleaning", ResumeCleaning);
   ("sendToBase", SendToBase);
   ("getLocalStats", GetLocalStats);
   ("getRobotManualCleaningInfo", GetRobotManualCleaningInfo);
   ("setMapBoundaries", SetMapBoundaries);
   ("getMapBoundaries", GetMapBoundaries);
   ("startPersistentMapExploration", StartPersistentMapExploration);
   ("getPreferences", GetPreferences);
   ("setPreferences", SetPreferences);
   ("getSchedule", GetSchedule);
   ("setSchedule", SetSchedule);
   ("enableSchedule", EnableSchedule);
   ("disableSchedule", DisableSchedule);
   ("getRobotInfo", GetRobotInfo)].

Lemma append_String (c : ascii) (a b : string) : String c a +:+ b = String c (a +:+ b).
Proof. reflexivity. Qed.

Lemma append_Empty (b : string) : EmptyString +:+ b = b.
Proof. reflexivity. Qed.

Lemma append_empty_r (s : string) : s +:+ "" = s.
Proof. induction s as [|c s IH]; rewrite ?append_String; simpl; [done | f_equal; exact IH]. Qed.

Lemma append_assoc' (a b c : string) : (a +:+ b) +:+ c = a +:+ (b +:+ c).
Proof. induction a as [|x a IH]; rewrite ?append_String; simpl; [done | f_equal; exact IH]. Qed.

Lemma list_ascii_of_string_append (a b : string) :
  list_ascii_of_string (a +:+ b) = list_ascii_of_string a ++ list_ascii_of_string b.
Proof. induction a as [|x a IH]; rewrite ?append_String; simpl; [done | f_equal; exact IH]. Qed.

Lemma list_ascii_of_string_inj (a b : string) :
  list_ascii_of_string a = list_ascii_of_string b -> a = b.
Proof.
  intros H. rewrite <- (string_of_list_ascii_of_string a), <- (string_of_list_ascii_of_string b).
  by rewrite H.
Qed.

Lemma append_cancel_l (a b c : string) : a +:+ b = a +:+ c -> b = c.
Proof. induction a as [|x a IH]; simpl; [done | intros H; injection H; auto]. Qed.

Lemma append_cancel_r (a b c : string) : b +:+ a = c +:+ a -> b = c.
Proof.
  intros H. apply list_ascii_of_string_inj.
  apply (f_equal list_ascii_of_string) in H.
  rewrite !list_ascii_of_string_append in H. by apply app_inv_tail in H.
Qed.

Lemma length_string_of_list_ascii (l : list ascii) :
  String.length (string_of_list_ascii l) = length l.
Proof. induction l as [|c l IH]; rewrite ?append_String; simpl; [done | f_equal; exact IH]. Qed.

Lemma str_take_all (n : nat) (s : string) : String.length s <= n -> str_take n s = s.
Proof.
  revert n; induction s as [|c s IH]; intros [|n] H; simpl in *; try done; try lia.
  rewrite IH; [done | lia].
Qed.

Lemma str_drop_zeros (k n : nat) : str_drop k (zeros n) = zeros (n - k).
Proof.
  revert n; induction k as [|k IH]; intros [|n]; simpl; done.
Qed.

Lemma SHA256_hash_length (m : string) : String.length (SHA256.hash m) = 32.
Proof.
  unfold SHA256.hash, string_of_bytes. rewrite length_string_of_list_ascii, length_map.
  unfold SHA256.digest_bytes, SHA256.be_bytes. by rewrite !length_app, !length_map.
Qed.

(* ---- crypto/hmac against RFC 2104 ---- *)

Lemma go_copy_zero_pad (n : nat) (key : string) :
  String.length key <= n -> go_copy (zeros n) key = key +:+ zeros (n - String.length key).
Proof.
  intros H. unfold go_copy. rewrite str_drop_zeros, str_take_all; [done|].
  assert (String.length (zeros n) = n) as ->; [|done].
  clear H; induction n; simpl; auto.
Qed.

(** The digest of ["abc"], the example of FIPS 180-4. *)
Lemma sha256_abc :
  hex_encode (SHA256.hash "abc") =
    "ba7816bf8f01cfea414140de5dae2223b00361a396177a9cb410ff61f20015ad".
Proof. vm_compute. reflexivity. Qed.

(** RFC 4231, test case 2, for the streaming [crypto/hmac] object. *)
Lemma hmac_rfc4231_case2 :
  hex_encode (hmac_Sum (hmac_Write (hmac_New "Jefe") "what do ya want for nothing?") "") =
    "5bdcc146bf60754e6a042426089575c75a003f089d2739839dec58b964ec3843".
Proof. vm_compute. reflexivity. Qed.

(** Go's streaming [hmac.New]/[Write]/[Sum] computes the RFC 2104 MAC. *)
Lemma hmac_sha256_go_ref (key msg : string) :
  hmac_Sum (hmac_Write (hmac_New key) msg) "" = HMAC_SHA256_ref key msg.
Proof.
  unfold hmac_Sum, hmac_Write, hmac_New, HMAC_SHA256_ref, sha256_BlockSize,
    digest_Sum, digest_Write, digest_Reset, sha256_New.
  destruct (Nat.ltb 64 (String.length key)) eqn:Hlt;
    cbn -[zeros go_copy SHA256.hash str_map String.append]; rewrite !append_Empty.
  - rewrite go_copy_zero_pad by (rewrite SHA256_hash_length; lia).
    rewrite SHA256_hash_length. reflexivity.
  - apply Nat.ltb_ge in Hlt. rewrite go_copy_zero_pad by lia. reflexivity.
Qed.

(* ---- hex encoding ---- *)

Lemma hex_pair_ok (c : ascii) :
  is_lower_hex_char (hex_digit (N.shiftr (N_of_ascii c) 4)) = true /\
  is_lower_hex_char (hex_digit (N.land (N_of_ascii c) 15)) = true /\
  ascii_of_N (hex_val (hex_digit (N.shiftr (N_of_ascii c) 4)) * 16 +
              hex_val (hex_digit (N.land (N_of_ascii c) 15))) = c.
Proof. destruct c as [[] [] [] [] [] [] [] []]; vm_compute; auto. Qed.

Lemma hex_encode_length (s : string) : String.length (hex_encode s) = 2 * String.length s.
Proof. induction s as [|c s IH]; simpl; [done | rewrite IH; lia]. Qed.

Lemma hex_encode_lower (s : string) : all_chars is_lower_hex_char (hex_encode s) = true.
Proof.
  induction s as [|c s IH]; simpl; [done|].
  destruct (hex_pair_ok c) as (-> & -> & _). exact IH.
Qed.

Lemma hex_decode_encode (s : string) : hex_decode (hex_encode s) = s.
Proof.
  induction s as [|c s IH]; simpl; [done|].
  destruct (hex_pair_ok c) as (_ & _ & ->). by rewrite IH.
Qed.

Lemma rand_Read_length (n : nat) (f : nat -> ascii) :
  String.length (string_of_list_ascii (map f (seq 0 n))) = n.
Proof. by rewrite length_string_of_list_ascii, length_map, length_seq. Qed.

Lemma newToken_spec (f : nat -> ascii) :
  rand_read tokenLength = Ok f ->
  newToken = Ok (Some (mkToken (hex_encode (string_of_list_ascii (map f (seq 0 tokenLength)))))).
Proof. intros H. unfold newToken, rand_Read. by rewrite H. Qed.

Lemma newID_spec (f : nat -> ascii) :
  rand_read idLength = Ok f ->
  newID = Ok (Some (hex_encode (string_of_list_ascii (map f (seq 0 idLength))))).
Proof. intros H. unfold newID, rand_Read. by rewrite H. Qed.

(* ---- the request/trace monad ---- *)

Lemma bind_lift_trace {A B} (m : M A) (f : A -> result B) :
  (bind m (fun x => lift (f x))).1 = m.1.
Proof. destruct m as [tr [a|e]]; simpl; [by rewrite app_nil_r | done]. Qed.

(* ================================================================== *)
(** ** Claims *)

(** C1: the Nucleo signature.  [sign] returns exactly the HMAC-SHA256
    (RFC 2104) digest, keyed by the robot's [SecretKey], of the signing
    string: the lowercased serial, a newline, the timestamp, a newline and
    the JSON encoding of the request envelope. *)
Theorem sign_is_hmac_sha256 (r : Robot) (req : request) (ts : string) :
  signingString unicode_lower r req ts =
    ToLower unicode_lower (Serial r) +:+ nl +:+ ts +:+ nl +:+ json_Marshal_request req /\
  sign unicode_lower r req ts =
    HMAC_SHA256_ref (SecretKey r) (signingString unicode_lower r req ts).
Proof. split; [reflexivity|]. unfold sign. apply hmac_sha256_go_ref. Qed.

(** C3 (as amended): the signing string is a function of the lowercased
    serial, the timestamp and the JSON encoding of the envelope.  With the
    other inputs fixed it changes exactly when the lowercased serial
    changes, when the timestamp changes, or when the envelope's JSON
    encoding changes; two ASCII serials differing only in letter case give
    the same string; and two envelopes can share one encoding (command
    names made of different invalid UTF-8 bytes are both encoded as the
    replacement character). *)
Theorem signingString_inputs (r1 r2 : Robot) (req1 req2 : request) (ts1 ts2 : string) :
  (ToLower unicode_lower (Serial r1) = ToLower unicode_lower (Serial r2) -> ts1 = ts2 ->
   json_Marshal_request req1 = json_Marshal_request req2 ->
   signingString unicode_lower r1 req1 ts1 = signingString unicode_lower r2 req2 ts2) /\
  (signingString unicode_lower r1 req1 ts1 = signingString unicode_lower r2 req1 ts1 <->
   ToLower unicode_lower (Serial r1) = ToLower unicode_lower (Serial r2)) /\
  (signingString unicode_lower r1 req1 ts1 = signingString unicode_lower r1 req1 ts2 <->
   ts1 = ts2) /\
  (signingString unicode_lower r1 req1 ts1 = signingString unicode_lower r1 req2 ts1 <->
   json_Marshal_request req1 = json_Marshal_request req2) /\
  (is_ascii (Serial r1) = true -> is_ascii (Serial r2) = true ->
   str_map ascii_lower (Serial r1) = str_map ascii_lower (Serial r2) ->
   signingString unicode_lower r1 req1 ts1 = signingString unicode_lower r2 req1 ts1) /\
  json_Marshal_request (mkRequest (ReqID req1) (char_str (ascii_of_nat 255)) (Params' req1)) =
  json_Marshal_request (mkRequest (ReqID req1) (char_str (ascii_of_nat 254)) (Params' req1)).
Proof.
  unfold signingString. split; [|split; [|split; [|split; [|split]]]].
  - intros -> -> ->. reflexivity.
  - split; [|intros ->; reflexivity].
    intros H. by apply append_cancel_r in H.
  - split; [|intros ->; reflexivity].
    intros H. apply append_cancel_l, append_cancel_l in H.
    by apply append_cancel_r in H.
  - split; [|intros ->; reflexivity].
    intros H. by do 4 apply append_cancel_l in H.
  - intros H1 H2 H3. unfold ToLower. by rewrite H1, H2, H3.
  - reflexivity.
Qed.

(** C2: response correlation.  Once [exec] has a decoded response, it
    returns that response exactly when the response's [reqId] equals the
    envelope's (as byte strings), and otherwise fails with the integrity
    error "conflicting ReqID value", returning no response. *)
Theorem exec_checks_reqID (r : Robot) (a : request) (tr : list (Client * Request))
    (resp : Response) :
  exec_roundtrip r a = (tr, Ok resp) ->
  (forall x, exec r a = (tr, Ok x) <->
             x = resp /\ reqID_string (Resp.ReqID resp) = reqID_string (ReqID a)) /\
  (reqID_string (Resp.ReqID resp) <> reqID_string (ReqID a) ->
   exec r a = (tr, Err "conflicting ReqID value")).
Proof.
  intros H. unfold exec. rewrite H. unfold bind, lift, checkID.
  destruct (String.eqb_spec (reqID_string (Resp.ReqID resp)) (reqID_string (ReqID a))) as [E|E];
    simpl; rewrite app_nil_r; split.
  - intros x; split; [intros Hx; injection Hx; auto | intros [-> _]; reflexivity].
  - intros C; contradiction.
  - intros x; split; [discriminate | intros [_ C]; contradiction].
  - reflexivity.
Qed.

(** C5: random tokens and identifiers.  [newToken] yields the lowercase
    hex encoding (64 characters) of the 32 bytes read from the secure
    random source, and [newID] that (32 characters) of 16 bytes; when the
    source fails, each returns its error and no value. *)
Theorem newToken_newID_hex :
  (forall f, rand_read tokenLength = Ok f ->
     let raw := string_of_list_ascii (map f (seq 0 tokenLength)) in
     newToken = Ok (Some (mkToken (hex_encode raw))) /\ String.length raw = 32 /\
     String.length (hex_encode raw) = 64 /\
     all_chars is_lower_hex_char (hex_encode raw) = true /\ hex_decode (hex_encode raw) = raw) /\
  (forall e, rand_read tokenLength = Err e -> newToken = Err e) /\
  (forall f, rand_read idLength = Ok f ->
     let raw := string_of_list_ascii (map f (seq 0 idLength)) in
     newID = Ok (Some (hex_encode raw)) /\ String.length raw = 16 /\
     String.length (hex_encode raw) = 32 /\
     all_chars is_lower_hex_char (hex_encode raw) = true /\ hex_decode (hex_encode raw) = raw) /\
  (forall e, rand_read idLength = Err e -> newID = Err e).
Proof.
  split; [|split; [|split]].
  - intros f H raw. refine (conj _ (conj _ (conj _ (conj _ _)))).
    + exact (newToken_spec f H).
    + apply rand_Read_length.
    + rewrite hex_encode_length. unfold raw. by rewrite rand_Read_length.
    + apply hex_encode_lower.
    + apply hex_decode_encode.
  - intros e H. unfold newToken, rand_Read. by rewrite H.
  - intros f H raw. refine (conj _ (conj _ (conj _ (conj _ _)))).
    + exact (newID_spec f H).
    + apply rand_Read_length.
    + rewrite hex_encode_length. unfold raw. by rewrite rand_Read_length.
    + apply hex_encode_lower.
    + apply hex_decode_encode.
  - intros e H. unfold newID, rand_Read. by rewrite H.
Qed.

(* ---- traces of the HTTP calls ---- *)

Lemma trace_lift_then {A B} (r : result A) (k : A -> M B) :
  (bind (lift r) k).1 = match r with Ok a => (k a).1 | Err _ => [] end.
Proof. destruct r as [a|e]; simpl; [destruct (k a); done | done]. Qed.

Lemma trace_send_then {A} (c : Client) (req : Request) (k : string -> M A) :
  (forall b, (k b).1 = []) -> (bind (send c req) k).1 = [(c, req)].
Proof.
  intros H. unfold bind, send. destruct (Do c req) as [b|e]; [|done].
  specialize (H b). destruct (k b) as [tr r]; simpl in *. by subst.
Qed.

Lemma session_exec_trace (s : Session) (method path : string) :
  Forall (fun cr => cr.1 = client s /\
                    Header' cr.2 !! "Accept" = Some [beehiveAcceptHeader] /\
                    Header' cr.2 !! "Authorization" = Some ["Bearer " +:+ AccessToken s])
         (session_exec s method path).1.
Proof.
  unfold session_exec. rewrite trace_lift_then.
  destruct (NewRequest _ _ _) as [req|e]; [|constructor].
  unfold send; simpl. constructor; [|constructor]. simpl.
  unfold set_header, Header_Set; simpl.
  change (CanonicalMIMEHeaderKey "Accept") with "Accept".
  change (CanonicalMIMEHeaderKey "Authorization") with "Authorization".
  split; [done|]. split.
  - rewrite lookup_insert_ne by done. by rewrite lookup_insert_eq.
  - by rewrite lookup_insert_eq.
Qed.

Lemma NewSession_trace :
  exists tr, NewSession.1 = tr /\
  (tr = [] \/ exists v req, NewRequest "POST" (sessionsURL v) "" = Ok req /\
                           tr = [(zero_Client, set_header req "Accept" nucleoAcceptHeader)]).
Proof.
  eexists; split; [reflexivity|].
  unfold NewSession. rewrite trace_lift_then. destruct newToken as [t|e]; [|by left].
  rewrite trace_lift_then. destruct (queryValues t) as [v|e]; [|by left].
  rewrite trace_lift_then. destruct (NewRequest _ _ _) as [req|e] eqn:E; [|by left].
  right. exists v, req. split; [done|]. apply trace_send_then.
  intros b. destruct (Decode_Session b zero_Session) as [[u|e] s']; reflexivity.
Qed.

Lemma refresh_request_trace (s : Session) :
  (refresh_request s).1 = [] \/
  exists v req, NewRequest "POST" (sessionsURL v) "" = Ok req /\
    (refresh_request s).1 = [(client s, set_header req "Accept" nucleoAcceptHeader)].
Proof.
  unfold refresh_request. rewrite trace_lift_then. destruct newToken as [t|e]; [|by left].
  rewrite trace_lift_then. destruct (queryValues t) as [v|e]; [|by left].
  rewrite trace_lift_then. destruct (NewRequest _ _ _) as [req|e] eqn:E; [|by left].
  right. exists v, req. split; [done|]. reflexivity.
Qed.

Lemma Refresh_trace (s : Session) : (Refresh s).1.1 = (refresh_request s).1.
Proof.
  unfold Refresh. destruct (refresh_request s) as [tr [b|e]]; [|done].
  by destruct (Decode_Session b s).
Qed.

Lemma accept_nucleo (req : Request) :
  Header' (set_header req "Accept" nucleoAcceptHeader) !! "Accept" = Some [nucleoAcceptHeader].
Proof.
  unfold set_header, Header_Set; simpl.
  change (CanonicalMIMEHeaderKey "Accept") with "Accept". by rewrite lookup_insert_eq.
Qed.

Lemma decode_members_client (kvs : list (string * json)) (s : Session) (saved : option string) :
  client (decode_members kvs s saved).2 = client s.
Proof.
  revert s saved; induction kvs as [|[k v] rest IH]; intros s saved; simpl; [done|].
  repeat case_match; try reflexivity; rewrite IH; reflexivity.
Qed.

Lemma Decode_Session_client (body : string) (s : Session) :
  client (Decode_Session body s).2 = client s.
Proof.
  unfold Decode_Session. destruct (json_parse body) as [[]|]; simpl; try done.
  apply decode_members_client.
Qed.

Lemma last_time_ok (kvs : list (string * json)) (x : string) :
  Forall member_ok kvs -> last_string F_CurrentTime kvs = Some x ->
  exists tm, parse_RFC3339 x = Ok tm.
Proof.
  induction kvs as [|[k v] rest IH]; intros Hok Hl; simpl in Hl; [done|].
  inversion Hok as [|? ? Hkv Hrest]; subst.
  destruct (last_string F_CurrentTime rest) eqn:El; [injection Hl as <-; by apply IH|].
  unfold field_is, member_ok in *; simpl in Hkv.
  destruct (session_field_of k) as [[]|]; try done.
  destruct v; try done. injection Hl as <-. exact Hkv.
Qed.

Lemma decode_members_ok (kvs : list (string * json)) (s : Session) :
  Forall member_ok kvs ->
  decode_members kvs s None =
    (Ok tt, mkSession (default (AccessToken s) (json_unquote <$> last_string F_AccessToken kvs))
                      (default (CurrentTime s) (last_string F_CurrentTime kvs ≫= time_of))
                      (client s)).
Proof.
  revert s; induction kvs as [|[k v] rest IH]; intros s Hok; simpl.
  - by destruct s.
  - inversion Hok as [|? ? Hkv Hrest]; subst. unfold member_ok in Hkv; simpl in Hkv.
    unfold field_is. destruct (session_field_of k) as [[]|] eqn:Ek.
    + destruct v; try contradiction; rewrite IH by done; simpl;
        destruct (last_string F_AccessToken rest), (last_string F_CurrentTime rest); done.
    + destruct v; try contradiction.
      1: rewrite IH by done; simpl;
        destruct (last_string F_AccessToken rest), (last_string F_CurrentTime rest); done.
      destruct Hkv as [tm Htm]. rewrite Htm, IH by done. simpl.
      destruct (last_string F_CurrentTime rest) as [x|] eqn:El.
      * destruct (last_time_ok _ _ Hrest El) as [tm' Htm']. simpl. unfold time_of.
        rewrite Htm'. by destruct (last_string F_AccessToken rest).
      * simpl. unfold time_of. rewrite Htm. by destruct (last_string F_AccessToken rest).
    + rewrite IH by done.
      by destruct (last_string F_AccessToken rest), (last_string F_CurrentTime rest).
Qed.

(* ================================================================== *)
(** ** Beehive sessions *)

(** Claim C6 (amended). [Refresh] keeps the session's transport client:
    its request is sent with [client s], and the session afterwards holds
    [client s] whatever the reply. When the request succeeds and the body
    is a JSON object whose members all decode without error (the members
    for the two fields are strings or [null], and the raw text of each
    [current_time] string is a valid RFC 3339 time), [Refresh] succeeds and
    the new [AccessToken] (unquoted) and [CurrentTime] are those of the last
    matching string members of the object; [null] members are ignored, and
    a field with no string member keeps its previous value (it is not
    overwritten). *)
Theorem Refresh_in_place (s : Session) :
  Forall (fun cr => cr.1 = client s) (Refresh s).1.1 /\
  client (Refresh s).2 = client s /\
  (forall tr body kvs,
     refresh_request s = (tr, Ok body) ->
     json_parse body = Ok (JObject kvs) ->
     Forall member_ok kvs ->
     Refresh s =
       (tr, Ok tt,
        mkSession (default (AccessToken s) (json_unquote <$> last_string F_AccessToken kvs))
                  (default (CurrentTime s) (last_string F_CurrentTime kvs ≫= time_of))
                  (client s))).
Proof.
  refine (conj _ (conj _ _)).
  - rewrite Refresh_trace. destruct (refresh_request_trace s) as [-> | (v & req & _ & ->)].
    + constructor.
    + repeat constructor.
  - unfold Refresh. destruct (refresh_request s) as [tr [body|e]]; [|done].
    pose proof (Decode_Session_client body s) as H.
    destruct (Decode_Session body s); exact H.
  - intros tr body kvs Hreq Hjson Hok. unfold Refresh. rewrite Hreq.
    unfold Decode_Session. rewrite Hjson. by rewrite decode_members_ok.
Qed.

(** Claim C7. Every request that [GetUser], [ListRobots], [GetRobotMap],
    [ListRobotMaps] and [ListRobotPersistentMaps] hand to the HTTP client is
    sent with the session's client and carries the single [Authorization]
    value ["Bearer "] followed by the session's [AccessToken] (for every
    token, empty or not). *)
Theorem beehive_calls_bearer (s : Session) (robot id : string) :
  let bearer_ok (tr : list (Client * Request)) :=
    Forall (fun cr => cr.1 = client s /\
              Header' cr.2 !! "Authorization" = Some ["Bearer " +:+ AccessToken s]) tr in
  bearer_ok (GetUser s).1 /\ bearer_ok (ListRobots s).1 /\
  bearer_ok (GetRobotMap s robot id).1 /\ bearer_ok (ListRobotMaps s robot).1 /\
  bearer_ok (ListRobotPersistentMaps s robot).1.
Proof.
  intros bearer_ok.
  assert (H : forall p, bearer_ok (session_exec s "GET" p).1).
  { intros p. eapply Forall_impl; [apply session_exec_trace|]. intros cr (? & _ & ?). done. }
  unfold GetUser, ListRobots, GetRobotMap, ListRobotMaps, ListRobotPersistentMaps.
  rewrite !bind_lift_trace. auto.
Qed.

(** Claim C10. The session-creation request of [NewSession] and of
    [Refresh] carries the single [Accept] value [nucleoAcceptHeader],
    which is ["application/vnd.neato.nucleo.v1"] and differs from
    [beehiveAcceptHeader], the [Accept] value of every request of the
    other Beehive calls (the method [exec] of [*Session]). *)
Theorem session_accept_nucleo (s : Session) (method path : string) :
  nucleoAcceptHeader = "application/vnd.neato.nucleo.v1" /\
  nucleoAcceptHeader <> beehiveAcceptHeader /\
  Forall (fun cr => Header' cr.2 !! "Accept" = Some [nucleoAcceptHeader]) NewSession.1 /\
  Forall (fun cr => Header' cr.2 !! "Accept" = Some [nucleoAcceptHeader]) (Refresh s).1.1 /\
  Forall (fun cr => Header' cr.2 !! "Accept" = Some [beehiveAcceptHeader])
         (session_exec s method path).1.
Proof.
  refine (conj eq_refl (conj _ (conj _ (conj _ _)))).
  - discriminate.
  - destruct NewSession_trace as (tr & -> & [-> | (v & req & _ & ->)]); [constructor|].
    constructor; [apply accept_nucleo | constructor].
  - rewrite Refresh_trace. destruct (refresh_request_trace s) as [-> | (v & req & _ & ->)].
    + constructor.
    + constructor; [apply accept_nucleo | constructor].
  - eapply Forall_impl; [apply session_exec_trace|]. intros cr (_ & ? & _). done.
Qed.

(* ---- the query of the session-creation request ---- *)

Lemma QueryEscape_lower_hex (t : string) :
  all_chars is_lower_hex_char t = true -> QueryEscape t = t.
Proof.
  induction t as [|c t IH]; intros H; simpl in *; [done|].
  apply andb_prop in H as [Hc Ht].
  assert (Ha : is_alnum c = true).
  { revert Hc. unfold is_lower_hex_char, is_alnum.
    destruct c as [[] [] [] [] [] [] [] []]; vm_compute; done. }
  rewrite Ha. simpl. by rewrite IH.
Qed.

Lemma Values_Encode_session (e p t : string) :
  Values_Encode (<["platform" := [platform]]> (<["token" := [t]]>
      (<["email" := [e]]> (<["password" := [p]]> ∅)))) =
  "email=" +:+ QueryEscape e +:+ "&password=" +:+ QueryEscape p +:+
  "&platform=ios&token=" +:+ QueryEscape t.
Proof. reflexivity. Qed.

(* ---- the path of the Nucleo messages endpoint ---- *)

Lemma split_on_no_sep (sep : ascii) (s : string) :
  all_chars (fun c => negb (c =? sep)%char) s = true -> split_on sep s = [s].
Proof.
  induction s as [|c s IH]; intros H; simpl in *; [done|].
  apply andb_prop in H as [Hc Hs]. apply negb_true_iff in Hc.
  rewrite Hc, IH by done. reflexivity.
Qed.

Lemma split_on_cons (sep : ascii) (s : string) : exists h t, split_on sep s = h :: t.
Proof.
  destruct s as [|c s]; simpl; [by eauto|].
  destruct (c =? sep)%char; [by eauto|]. destruct (split_on sep s); eauto.
Qed.

Lemma split_on_app (sep : ascii) (a b : string) :
  split_on sep (a +:+ String sep b) = split_on sep a ++ split_on sep b.
Proof.
  induction a as [|c a IH]; rewrite ?append_String, ?append_Empty; simpl.
  - by rewrite Ascii.eqb_refl.
  - rewrite IH. destruct (c =? sep)%char; [done|].
    destruct (split_on_cons sep a) as (h & t & ->). reflexivity.
Qed.

Lemma path_Clean_unrooted (c : ascii) (r : string) :
  (c =? "/")%char = false ->
  path_Clean (String c r) =
    let body := join "/" (rev (fold_left (clean_step false) (split_on "/" (String c r)) [])) in
    if String.eqb body "" then "." else body.
Proof. intros H. unfold path_Clean. by rewrite H. Qed.

Lemma messages_path (s : string) :
  clean_segment s = true ->
  path_Join ["vendors/neato/robots"; s; "messages"] =
    "vendors/neato/robots/" +:+ s +:+ "/messages".
Proof.
  unfold clean_segment. intros H.
  apply andb_prop in H as [H Hc]. apply andb_prop in H as [H Hdd].
  apply andb_prop in H as [He Hd]. apply negb_true_iff in He, Hd, Hdd.
  set (X := "endors" +:+ String "/" ("neato" +:+ String "/" ("robots" +:+
              String "/" (s +:+ String "/" "messages")))).
  transitivity (path_Clean (String "v" X)); [reflexivity|].
  rewrite path_Clean_unrooted by reflexivity.
  change (String "v" X) with ("vendors" +:+ String "/" ("neato" +:+ String "/" ("robots" +:+
              String "/" (s +:+ String "/" "messages")))).
  rewrite !split_on_app, (split_on_no_sep _ s Hc). simpl.
  cbv [clean_step]. rewrite He, Hd, Hdd. simpl.
  destruct (String.eqb _ "") eqn:E; [vm_compute in E; discriminate|]. reflexivity.
Qed.

Lemma NewRequest_POST (u : URL) (b : string) :
  NewRequest "POST" u b = Ok (mkRequest' "POST" (url_roundtrip u) ∅ b).
Proof. reflexivity. Qed.

Lemma set_header_eq (req : Request) (k v : string) :
  CanonicalMIMEHeaderKey k = k -> Header' (set_header req k v) !! k = Some [v].
Proof. intros H. unfold set_header, Header_Set. cbn [Header']. rewrite H. apply lookup_insert_eq. Qed.

Lemma set_header_ne (req : Request) (k k' v : string) :
  CanonicalMIMEHeaderKey k <> k' -> Header' (set_header req k v) !! k' = Header' req !! k'.
Proof. intros H. unfold set_header, Header_Set. cbn [Header']. by apply lookup_insert_ne. Qed.

Lemma exec_trace (r : Robot) (a : request) :
  (exec r a).1 = [(zero_Client, exec_request r a)].
Proof.
  unfold exec. rewrite bind_lift_trace. unfold exec_roundtrip.
  rewrite trace_lift_then, NewRequest_POST, trace_lift_then.
  apply trace_send_then. reflexivity.
Qed.

(* ================================================================== *)
(** ** Session creation and the Nucleo endpoint *)

(** Claim C8. With credentials ["a@b.com"] / ["secret"] and an entropy
    source answering [f], [NewSession] sends one request, a [POST] to
    [/sessions] whose query is exactly [email=a@b.com], [password=secret],
    [platform=ios] and [token=t] (encoded by [url.Values.Encode], so the
    [@] is written [%40]), with [t] the 64 lowercase hex digits of the 32
    random bytes. *)
Theorem NewSession_query (f : nat -> ascii) :
  pass_Get credentialsPassRE = Ok (mkCredentials "a@b.com" "secret") ->
  rand_read tokenLength = Ok f ->
  let t := hex_encode (string_of_list_ascii (map f (seq 0 tokenLength))) in
  exists req, NewSession.1 = [(zero_Client, req)] /\
    String.length t = 64 /\ all_chars is_lower_hex_char t = true /\
    Method req = "POST" /\ Path (URL' req) = "/sessions" /\
    RawQuery (URL' req) = "email=a%40b.com&password=secret&platform=ios&token=" +:+ t.
Proof.
  intros Hc Hr t.
  set (V := <["platform" := [platform]]> (<["token" := [t]]>
              (<["email" := ["a@b.com"]]> (<["password" := ["secret"]]> (∅ : Values))))).
  assert (Hq : queryValues (Some (mkToken t)) = Ok V).
  { unfold queryValues, getCredentials. by rewrite Hc. }
  exists (set_header (mkRequest' "POST" (url_roundtrip (sessionsURL V)) ∅ "") "Accept"
            nucleoAcceptHeader).
  refine (conj _ (conj _ (conj _ (conj eq_refl (conj eq_refl _))))).
  - unfold NewSession. rewrite trace_lift_then, (newToken_spec f Hr).
    rewrite trace_lift_then. fold t. rewrite Hq.
    rewrite trace_lift_then, NewRequest_POST.
    apply trace_send_then. intros b.
    destruct (Decode_Session b zero_Session) as [[u|e] s']; reflexivity.
  - unfold t. by rewrite hex_encode_length, rand_Read_length.
  - apply hex_encode_lower.
  - change (RawQuery (URL' (set_header (mkRequest' "POST" (url_roundtrip (sessionsURL V)) ∅ "")
              "Accept" nucleoAcceptHeader))) with (Values_Encode V).
    unfold V. rewrite Values_Encode_session, (QueryEscape_lower_hex t) by apply hex_encode_lower.
    reflexivity.
Qed.

(** Claim C9 (amended). For every robot and envelope, the one request of
    [exec] carries as [Authorization] value [NEATOAPP] followed by the hex
    HMAC-SHA256, keyed by the secret key, of the lowercased serial, the
    [Date] timestamp and the JSON envelope. When the serial is a single
    clean path element (non-empty, not [.] or [..], without [/]), the
    request goes to the path [/vendors/neato/robots/<serial>/messages]
    with the serial as given. *)
Theorem exec_path_and_signature (r : Robot) (a : request) :
  exists req, (exec r a).1 = [(zero_Client, req)] /\
    Header' req !! "Date" = Some [Time_Format now timeFormat] /\
    Header' req !! "Authorization" =
      Some ["NEATOAPP " +:+ hex_encode (HMAC_SHA256_ref (SecretKey r)
              (ToLower unicode_lower (Serial r) +:+ nl +:+ Time_Format now timeFormat +:+
               nl +:+ json_Marshal_request a))] /\
    (clean_segment (Serial r) = true ->
     Path (URL' req) = "/vendors/neato/robots/" +:+ Serial r +:+ "/messages").
Proof.
  exists (exec_request r a).
  refine (conj (exec_trace r a) (conj _ (conj _ _))).
  - unfold exec_request; cbv zeta.
    rewrite set_header_ne by (vm_compute; intros H; discriminate H).
    by apply set_header_eq.
  - unfold exec_request; cbv zeta. rewrite set_header_eq by reflexivity.
    unfold sign. rewrite hmac_sha256_go_ref. unfold signingString. reflexivity.
  - intros Hs.
    change (Path (URL' (exec_request r a))) with (Path (url_roundtrip (messagesURL r))).
    unfold url_roundtrip, messagesURL. cbn [Path].
    rewrite (messages_path _ Hs). reflexivity.
Qed.

(* ================================================================== *)
(** ** Further properties of the package *)

(* ---- paths built by [path.Join] ---- *)

Lemma concat_cons (sep x : string) (l : list string) :
  String.concat sep (x :: l) =
    x +:+ match l with [] => "" | _ => sep +:+ String.concat sep l end.
Proof. destruct l; simpl; [by rewrite append_empty_r | reflexivity]. Qed.

Lemma join_split (sep : ascii) (p : string) :
  join (char_str sep) (split_on sep p) = p.
Proof.
  unfold join. induction p as [|c p IH]; [reflexivity|]. simpl.
  destruct (split_on_cons sep p) as (h & t & Hs).
  destruct (c =? sep)%char eqn:Ec.
  - apply Ascii.eqb_eq in Ec as ->. rewrite concat_cons, Hs. rewrite Hs in IH.
    rewrite append_Empty. unfold char_str. rewrite append_String, append_Empty. by f_equal.
  - rewrite Hs. rewrite Hs, concat_cons in IH. rewrite concat_cons, append_String.
    by f_equal.
Qed.

Definition plain_segment (e : string) : Prop := e <> "" /\ e <> "." /\ e <> "..".

Lemma clean_step_plain (b : bool) (st : list string) (e : string) :
  plain_segment e -> clean_step b st e = e :: st.
Proof.
  intros (H1 & H2 & H3). unfold clean_step.
  rewrite (proj2 (String.eqb_neq _ _) H1), (proj2 (String.eqb_neq _ _) H2),
    (proj2 (String.eqb_neq _ _) H3). reflexivity.
Qed.

Lemma fold_clean_plain (b : bool) (l st : list string) :
  Forall plain_segment l -> fold_left (clean_step b) l st = rev l ++ st.
Proof.
  revert st; induction l as [|e l IH]; intros st Hl; [done|].
  inversion Hl; subst. simpl. rewrite clean_step_plain, IH by done.
  by rewrite <- app_assoc.
Qed.

(** A relative path whose elements are all plain is left unchanged by
    [path.Clean]. *)
Lemma path_Clean_plain (c : ascii) (r : string) :
  (c =? "/")%char = false ->
  Forall plain_segment (split_on "/" (String c r)) ->
  path_Clean (String c r) = String c r.
Proof.
  intros Hc Hl. rewrite path_Clean_unrooted by done. cbv zeta.
  rewrite fold_clean_plain, app_nil_r, rev_involutive by done.
  change "/" with (char_str "/"). rewrite join_split. reflexivity.
Qed.

Lemma clean_segment_spec (s : string) :
  clean_segment s = true -> split_on "/" s = [s] /\ plain_segment s.
Proof.
  unfold clean_segment. intros H.
  apply andb_prop in H as [H Hc]. apply andb_prop in H as [H Hdd].
  apply andb_prop in H as [He Hd]. apply negb_true_iff in He, Hd, Hdd.
  split; [by apply split_on_no_sep|].
  split; [|split]; by apply String.eqb_neq.
Qed.

Lemma robot_maps_path (robot id : string) :
  clean_segment robot = true -> clean_segment id = true ->
  path_Join ["users/me/robots"; robot; "maps"; id] =
    "users/me/robots/" +:+ robot +:+ "/maps/" +:+ id.
Proof.
  intros Hr Hi. apply clean_segment_spec in Hr as [Sr Pr], Hi as [Si Pi].
  transitivity (path_Clean (String "u" ("sers" +:+ String "/" ("me" +:+ String "/" ("robots" +:+
     String "/" (robot +:+ String "/" ("maps" +:+ String "/" id))))))); [reflexivity|].
  rewrite path_Clean_plain; [reflexivity | reflexivity |].
  change (String "u" ("sers" +:+ ?x)) with ("users" +:+ x).
  rewrite !split_on_app, Sr, Si. simpl.
  repeat apply List.Forall_cons; try apply List.Forall_nil; try assumption;
    repeat split; discriminate.
Qed.

Lemma robot_sub_path (robot sub : string) :
  clean_segment robot = true -> clean_segment sub = true ->
  path_Join ["users/me/robots"; robot; sub] = "users/me/robots/" +:+ robot +:+ "/" +:+ sub.
Proof.
  intros Hr Hi. apply clean_segment_spec in Hr as [Sr Pr], Hi as [Si Pi].
  transitivity (path_Clean (String "u" ("sers" +:+ String "/" ("me" +:+ String "/" ("robots" +:+
     String "/" (robot +:+ String "/" sub)))))); [reflexivity|].
  rewrite path_Clean_plain; [reflexivity | reflexivity |].
  change (String "u" ("sers" +:+ ?x)) with ("users" +:+ x).
  rewrite !split_on_app, Sr, Si. simpl.
  repeat apply List.Forall_cons; try apply List.Forall_nil; try assumption;
    repeat split; discriminate.
Qed.

Lemma path_Clean_trailing (p : string) :
  p <> "" -> path_Clean (p +:+ "/") = path_Clean p.
Proof.
  destruct p as [|c r]; [done|]. intros _.
  change (String c r +:+ "/") with (String c (r +:+ "/")).
  unfold path_Clean. cbv beta iota zeta.
  change (String c (r +:+ "/")) with (String c r +:+ String "/" "").
  rewrite split_on_app, fold_left_app. reflexivity.
Qed.

(* ---- requests of [*Session]'s [exec] ---- *)

Lemma NewRequest_GET (u : URL) (b : string) :
  NewRequest "GET" u b = Ok (mkRequest' "GET" (url_roundtrip u) ∅ b).
Proof. reflexivity. Qed.

Lemma session_exec_GET_shape (s : Session) (c : ascii) (q : string) :
  (c =? "/")%char = false ->
  exists req, (session_exec s "GET" (String c q)).1 = [(client s, req)] /\
    Method req = "GET" /\ URL' req = mkURL "https" beehiveHost ("/" +:+ String c q) "" /\
    Body req = "" /\
    (forall k, k <> "Accept" -> k <> "Authorization" -> Header' req !! k = None).
Proof.
  intros Hc.
  exists (setHeaders s (mkRequest' "GET" (url_roundtrip (mkURL "https" beehiveHost (String c q) ""))
                                    ∅ "")).
  refine (conj _ (conj eq_refl (conj _ (conj eq_refl _)))).
  - unfold session_exec. rewrite trace_lift_then, NewRequest_GET.
    unfold bind, send. destruct (Do _ _); reflexivity.
  - cbn [URL' setHeaders set_header]. unfold url_roundtrip. cbn [Path Scheme Host RawQuery].
    by rewrite Hc.
  - intros k Ha Hz. unfold setHeaders.
    rewrite set_header_ne by (change (CanonicalMIMEHeaderKey "Authorization") with "Authorization";
                              congruence).
    rewrite set_header_ne by (change (CanonicalMIMEHeaderKey "Accept") with "Accept"; congruence).
    apply lookup_empty.
Qed.

(* ---- [NewSession] and [Refresh], step by step ---- *)

Lemma queryValues_err (t : option token) (e : string) :
  pass_Get credentialsPassRE = Err e -> queryValues t = Err e.
Proof. intros H. unfold queryValues, getCredentials. by rewrite H. Qed.

Lemma queryValues_ok (t : option token) (c : credentials) :
  pass_Get credentialsPassRE = Ok c ->
  queryValues t = Ok (<["platform" := [platform]]> (<["token" := [token_String t]]>
          (<["email" := [Username c]]> (<["password" := [Password c]]> ∅)))).
Proof. intros H. unfold queryValues, getCredentials. by rewrite H. Qed.

Definition session_request (v : Values) : Request :=
  set_header (mkRequest' "POST" (url_roundtrip (sessionsURL v)) ∅ "") "Accept" nucleoAcceptHeader.

Lemma NewSession_eq :
  NewSession =
    match newToken with
    | Err e => ([], Err e)
    | Ok t =>
        match queryValues t with
        | Err e => ([], Err e)
        | Ok v =>
            ([(zero_Client, session_request v)],
             match Do zero_Client (session_request v) with
             | Err e => Err e
             | Ok b => match Decode_Session b zero_Session with
                       | (Err e, _) => Err e
                       | (Ok _, s') => Ok s'
                       end
             end)
        end
    end.
Proof.
  unfold NewSession. unfold bind at 1, lift at 1.
  destruct newToken as [t|e]; [|reflexivity]. cbv beta iota.
  unfold bind at 1, lift at 1. destruct (queryValues t) as [v|e]; [|reflexivity]. cbv beta iota.
  rewrite NewRequest_POST. unfold bind, lift, send, ret. cbv beta iota.
  fold (session_request v). destruct (Do zero_Client (session_request v)) as [b|e]; [|reflexivity].
  cbv beta iota. destruct (Decode_Session b zero_Session) as [[u|e] s']; reflexivity.
Qed.

Lemma Refresh_eq (s : Session) :
  Refresh s =
    match newToken with
    | Err e => ([], Err e, s)
    | Ok t =>
        match queryValues t with
        | Err e => ([], Err e, s)
        | Ok v =>
            match Do (client s) (session_request v) with
            | Err e => ([(client s, session_request v)], Err e, s)
            | Ok b => let '(r, s') := Decode_Session b s in ([(client s, session_request v)], r, s')
            end
        end
    end.
Proof.
  unfold Refresh, refresh_request. unfold bind at 1, lift at 1.
  destruct newToken as [t|e]; [|reflexivity]. cbv beta iota.
  unfold bind at 1, lift at 1. destruct (queryValues t) as [v|e]; [|reflexivity]. cbv beta iota.
  rewrite NewRequest_POST. unfold bind, lift, send. cbv beta iota.
  fold (session_request v). destruct (Do (client s) (session_request v)) as [b|e]; reflexivity.
Qed.

(* ---- [exec] of [*Robot], step by step ---- *)

Lemma exec_eq (r : Robot) (a : request) :
  exec r a =
    ([(zero_Client, exec_request r a)],
     match Do zero_Client (exec_request r a) with
     | Err e => Err e
     | Ok b => match decode_Response b with
               | Err e => Err e
               | Ok resp => checkID resp a
               end
     end).
Proof.
  unfold exec, exec_roundtrip. rewrite NewRequest_POST.
  cbv beta iota zeta delta [bind lift send addHeaders authorization].
  fold (exec_request r a).
  destruct (Do zero_Client (exec_request r a)) as [b|e]; [|reflexivity].
  cbv beta iota. destruct (decode_Response b) as [resp|e]; [|reflexivity].
  cbv beta iota. destruct (checkID resp a); reflexivity.
Qed.

Lemma command_trace (cmd : string) (r : Robot) (p : option Params) (f : nat -> ascii) :
  rand_read idLength = Ok f ->
  (command cmd r p).1 =
    [(zero_Client, exec_request r
        (mkRequest (Some (hex_encode (string_of_list_ascii (map f (seq 0 idLength))))) cmd p))].
Proof.
  intros H. unfold command. rewrite trace_lift_then. unfold newRequest.
  rewrite (newID_spec f H). apply exec_trace.
Qed.

(* ---- the properties ---- *)

(** X1. When the entropy source fails, a command wrapper ([FindMe],
    [GetRobotInfo], ...) returns that error and sends no request. *)
Theorem command_entropy_error (cmd : string) (r : Robot) (p : option Params) (e : string) :
  rand_read idLength = Err e -> command cmd r p = ([], Err e).
Proof. intros H. unfold command, newRequest, newID, rand_Read. by rewrite H. Qed.

(** X2. [exec] of [*Robot] sends exactly one request, with the zero
    [http.Client]: a [POST] over https to the Nucleo host with an empty
    query, the JSON encoding of the envelope as body, [Accept] set to the
    Nucleo media type and [Date] to the formatted current time, and no
    header besides [Accept], [Date] and [Authorization]. *)
Theorem exec_request_shape (r : Robot) (a : request) :
  exists req, (exec r a).1 = [(zero_Client, req)] /\
    Method req = "POST" /\ Scheme (URL' req) = "https" /\ Host (URL' req) = nucleoHost /\
    RawQuery (URL' req) = "" /\ Body req = json_Marshal_request a /\
    Header' req !! "Accept" = Some [nucleoAcceptHeader] /\
    Header' req !! "Date" = Some [Time_Format now timeFormat] /\
    (forall k, k <> "Accept" -> k <> "Date" -> k <> "Authorization" -> Header' req !! k = None).
Proof.
  exists (exec_request r a).
  refine (conj (exec_trace r a) (conj eq_refl (conj eq_refl (conj eq_refl
            (conj eq_refl (conj eq_refl _)))))).
  unfold exec_request. cbv zeta.
  assert (Hz : CanonicalMIMEHeaderKey "Authorization" = "Authorization") by reflexivity.
  assert (Hd : CanonicalMIMEHeaderKey "Date" = "Date") by reflexivity.
  assert (Ha : CanonicalMIMEHeaderKey "Accept" = "Accept") by reflexivity.
  refine (conj _ (conj _ _)).
  - rewrite set_header_ne by (rewrite Hz; discriminate).
    rewrite set_header_ne by (rewrite Hd; discriminate). apply accept_nucleo.
  - rewrite set_header_ne by (rewrite Hz; discriminate). by apply set_header_eq.
  - intros k H1 H2 H3.
    rewrite set_header_ne by (rewrite Hz; congruence).
    rewrite set_header_ne by (rewrite Hd; congruence).
    rewrite set_header_ne by (rewrite Ha; congruence).
    apply lookup_empty.
Qed.

(** X3. [exec] of [*Robot] passes errors through: a transport error of
    the request, or an error decoding the reply body, is returned as it
    is (after the one request was sent); a decoded reply is then checked
    by [checkID]. *)
Theorem exec_errors (r : Robot) (a : request) :
  (forall e, Do zero_Client (exec_request r a) = Err e ->
     exec r a = ([(zero_Client, exec_request r a)], Err e)) /\
  (forall b e, Do zero_Client (exec_request r a) = Ok b -> decode_Response b = Err e ->
     exec r a = ([(zero_Client, exec_request r a)], Err e)) /\
  (forall b resp, Do zero_Client (exec_request r a) = Ok b -> decode_Response b = Ok resp ->
     exec r a = ([(zero_Client, exec_request r a)], checkID resp a)).
Proof.
  rewrite exec_eq. refine (conj _ (conj _ _)).
  - intros e H. by rewrite H.
  - intros b e H1 H2. by rewrite H1, H2.
  - intros b resp H1 H2. by rewrite H1, H2.
Qed.

(** X4. For a robot serial and a map id that are plain path elements,
    each Beehive data call sends exactly one [GET] request with the
    session's client, over https to the Beehive host, to its endpoint
    ([/users/me], [/users/me/robots], [/users/me/robots/<robot>/maps/<id>],
    [/users/me/robots/<robot>/maps], [/users/me/robots/<robot>/persistent_maps]),
    with an empty query and body and no header besides [Accept] and
    [Authorization]. *)
Theorem beehive_data_requests (s : Session) (robot id : string) :
  clean_segment robot = true -> clean_segment id = true ->
  let get_ok (p : string) (tr : list (Client * Request)) :=
    exists req, tr = [(client s, req)] /\ Method req = "GET" /\
      URL' req = mkURL "https" beehiveHost p "" /\ Body req = "" /\
      (forall k, k <> "Accept" -> k <> "Authorization" -> Header' req !! k = None) in
  get_ok "/users/me" (GetUser s).1 /\
  get_ok "/users/me/robots" (ListRobots s).1 /\
  get_ok ("/users/me/robots/" +:+ robot +:+ "/maps/" +:+ id) (GetRobotMap s robot id).1 /\
  get_ok ("/users/me/robots/" +:+ robot +:+ "/maps") (ListRobotMaps s robot).1 /\
  get_ok ("/users/me/robots/" +:+ robot +:+ "/persistent_maps") (ListRobotPersistentMaps s robot).1.
Proof.
  intros Hr Hi get_ok. subst get_ok.
  unfold GetUser, ListRobots, GetRobotMap, ListRobotMaps, ListRobotPersistentMaps.
  rewrite !bind_lift_trace.
  rewrite (robot_maps_path robot id Hr Hi), (robot_sub_path robot "maps" Hr eq_refl),
    (robot_sub_path robot "persistent_maps" Hr eq_refl).
  refine (conj _ (conj _ (conj _ (conj _ _)))); apply (session_exec_GET_shape s "u"); reflexivity.
Qed.

(** X5. An empty map id is dropped by [path.Join]: [GetRobotMap] with
    id [""] sends the same requests as [ListRobotMaps] for that robot. *)
Theorem GetRobotMap_empty_id (s : Session) (robot : string) :
  (GetRobotMap s robot "").1 = (ListRobotMaps s robot).1.
Proof.
  unfold GetRobotMap, ListRobotMaps. rewrite !bind_lift_trace.
  assert (H : path_Join ["users/me/robots"; robot; "maps"; ""] =
              path_Join ["users/me/robots"; robot; "maps"]).
  { change (path_Join ["users/me/robots"; robot; "maps"; ""]) with
      (path_Clean (join "/" ["users/me/robots"; robot; "maps"; ""])).
    change (path_Join ["users/me/robots"; robot; "maps"]) with
      (path_Clean (join "/" ["users/me/robots"; robot; "maps"])).
    rewrite <- (path_Clean_trailing (join "/" ["users/me/robots"; robot; "maps"]))
      by discriminate.
    f_equal. unfold join. simpl. rewrite !append_assoc', ?append_empty_r. reflexivity. }
  by rewrite H.
Qed.

(** X6. A session made by [NewSession] always holds the zero
    [http.Client]; when the server answers with a JSON object whose
    members all decode, the session holds the last token (unquoted) and
    time string members of the object, and [""] and the zero time for the
    ones it lacks. *)
Theorem NewSession_fresh_session :
  (forall s', NewSession.2 = Ok s' -> client s' = zero_Client) /\
  (forall f c body kvs,
     rand_read tokenLength = Ok f -> pass_Get credentialsPassRE = Ok c ->
     (forall req, Do zero_Client req = Ok body) ->
     json_parse body = Ok (JObject kvs) -> Forall member_ok kvs ->
     NewSession.2 = Ok (mkSession (default "" (json_unquote <$> last_string F_AccessToken kvs))
                                  (default zero_Time (last_string F_CurrentTime kvs ≫= time_of))
                                  zero_Client)).
Proof.
  split.
  - rewrite NewSession_eq. intros s'.
    destruct newToken as [t|e]; [|discriminate]. destruct (queryValues t) as [v|e]; [|discriminate].
    cbn [snd]. destruct (Do zero_Client (session_request v)) as [b|e]; [|discriminate].
    pose proof (Decode_Session_client b zero_Session) as Hc.
    destruct (Decode_Session b zero_Session) as [[u|e] s'']; [|discriminate].
    intros H. injection H as <-. exact Hc.
  - intros f c body kvs Hf Hc Hdo Hj Hok. rewrite NewSession_eq, (newToken_spec f Hf).
    rewrite (queryValues_ok _ c Hc). cbn [snd]. rewrite Hdo. unfold Decode_Session.
    rewrite Hj, decode_members_ok by done. reflexivity.
Qed.

(** X7. Session creation fails before any request when the entropy
    source or the credential store fails: [NewSession] and [Refresh]
    return that error, and [Refresh] leaves the session as it was. A
    transport error is returned after the one request, and [Refresh] then
    also leaves the session as it was. *)
Theorem session_creation_failures (s : Session) :
  (forall e, rand_read tokenLength = Err e ->
     NewSession = ([], Err e) /\ Refresh s = ([], Err e, s)) /\
  (forall f e, rand_read tokenLength = Ok f -> pass_Get credentialsPassRE = Err e ->
     NewSession = ([], Err e) /\ Refresh s = ([], Err e, s)) /\
  (forall f c e, rand_read tokenLength = Ok f -> pass_Get credentialsPassRE = Ok c ->
     (forall req, Do zero_Client req = Err e) ->
     exists req, NewSession = ([(zero_Client, req)], Err e)) /\
  (forall f c e, rand_read tokenLength = Ok f -> pass_Get credentialsPassRE = Ok c ->
     (forall req, Do (client s) req = Err e) ->
     exists req, Refresh s = ([(client s, req)], Err e, s)).
Proof.
  refine (conj _ (conj _ (conj _ _))).
  - intros e H. assert (Ht : newToken = Err e) by (unfold newToken, rand_Read; by rewrite H).
    rewrite NewSession_eq, Refresh_eq, Ht. done.
  - intros f e Hf He. rewrite NewSession_eq, Refresh_eq, (newToken_spec f Hf).
    rewrite (queryValues_err _ e He). done.
  - intros f c e Hf Hc Hdo. rewrite NewSession_eq, (newToken_spec f Hf), (queryValues_ok _ c Hc).
    rewrite Hdo. eexists. reflexivity.
  - intros f c e Hf Hc Hdo. rewrite Refresh_eq, (newToken_spec f Hf), (queryValues_ok _ c Hc).
    rewrite Hdo. eexists. reflexivity.
Qed.

(** X8. A reply that is JSON but not an object leaves the session of
    [Refresh] as it was: [null] is accepted without error, any other
    value is an error. *)
Theorem Refresh_non_object_reply (s : Session) (f : nat -> ascii) (c : credentials)
    (body : string) (j : json) :
  rand_read tokenLength = Ok f -> pass_Get credentialsPassRE = Ok c ->
  (forall req, Do (client s) req = Ok body) ->
  json_parse body = Ok j -> (forall kvs, j <> JObject kvs) ->
  (Refresh s).2 = s /\ ((Refresh s).1.2 = Ok tt <-> j = JNull).
Proof.
  intros Hf Hc Hdo Hj Hn.
  rewrite Refresh_eq, (newToken_spec f Hf), (queryValues_ok _ c Hc), Hdo.
  unfold Decode_Session. rewrite Hj.
  destruct j as [| | | | |kvs]; cbn; try (split; [reflexivity | split; discriminate]).
  - done.
  - by destruct (Hn kvs).
Qed.

(** X9. Each of the nineteen command methods of [*Robot] sends exactly
    one request: [exec]'s request for a fresh envelope with a new
    identifier, its own command name and the given parameters; no two
    methods send the same command. *)
Theorem robot_commands_requests :
  NoDup (map fst robot_commands) /\
  Forall (fun nw => forall r p f, rand_read idLength = Ok f ->
            (nw.2 r p).1 =
              [(zero_Client, exec_request r
                  (mkRequest (Some (hex_encode (string_of_list_ascii (map f (seq 0 idLength)))))
                             nw.1 p))])
         robot_commands.
Proof.
  split.
  - apply (bool_decide_unpack _). vm_compute. reflexivity.
  - unfold robot_commands. repeat apply List.Forall_cons; try apply List.Forall_nil;
      intros r p f H; apply (command_trace _ _ _ _ H).
Qed.

End Runtime.

(* ================================================================== *)
(** ** The concrete runtime of [Fixture] *)

(** Claim C2, at a concrete input: a robot echoing the identifier of the
    [findMe] envelope, whose answer [exec] returns. *)
Lemma exec_checks_reqID_witness :
  exec_roundtrip Fixture.Client Fixture.zero_Client Fixture.Do Fixture.now Fixture.Time_Format Fixture.unicode_lower Fixture.decode_Response (Fixture.robot "ABC123") (mkRequest (Some "00000000000000000000000000000000") "findMe" None) =
    ((exec_roundtrip Fixture.Client Fixture.zero_Client Fixture.Do Fixture.now Fixture.Time_Format Fixture.unicode_lower Fixture.decode_Response (Fixture.robot "ABC123") (mkRequest (Some "00000000000000000000000000000000") "findMe" None)).1,
     Ok (Fixture.response (Some "00000000000000000000000000000000"))) /\
  exec Fixture.Client Fixture.zero_Client Fixture.Do Fixture.now Fixture.Time_Format Fixture.unicode_lower Fixture.decode_Response (Fixture.robot "ABC123") (mkRequest (Some "00000000000000000000000000000000") "findMe" None) =
    ((exec_roundtrip Fixture.Client Fixture.zero_Client Fixture.Do Fixture.now Fixture.Time_Format Fixture.unicode_lower Fixture.decode_Response (Fixture.robot "ABC123") (mkRequest (Some "00000000000000000000000000000000") "findMe" None)).1,
     Ok (Fixture.response (Some "00000000000000000000000000000000"))).
Proof.
  assert (H : exec_roundtrip Fixture.Client Fixture.zero_Client Fixture.Do Fixture.now Fixture.Time_Format Fixture.unicode_lower Fixture.decode_Response (Fixture.robot "ABC123") (mkRequest (Some "00000000000000000000000000000000") "findMe" None) =
    ((exec_roundtrip Fixture.Client Fixture.zero_Client Fixture.Do Fixture.now Fixture.Time_Format Fixture.unicode_lower Fixture.decode_Response (Fixture.robot "ABC123") (mkRequest (Some "00000000000000000000000000000000") "findMe" None)).1,
     Ok (Fixture.response (Some "00000000000000000000000000000000")))) by (vm_compute; reflexivity).
  refine (conj H _).
  apply (proj1 (exec_checks_reqID Fixture.Client Fixture.zero_Client Fixture.Do Fixture.now Fixture.Time_Format Fixture.unicode_lower Fixture.decode_Response _ _ _ _ H) _).
  split; reflexivity.
Defined.

(** Claim C3, counterexample: the serials ["ABC123"] and ["abc123"]
    differ only in letter case, and give the same signing string. *)
Lemma signingString_case_collision :
  signingString Fixture.unicode_lower (Fixture.robot "ABC123") (mkRequest (Some "00000000000000000000000000000000") "findMe" None) "ts" =
  signingString Fixture.unicode_lower (Fixture.robot "abc123") (mkRequest (Some "00000000000000000000000000000000") "findMe" None) "ts".
Proof. vm_compute. reflexivity. Qed.

(** Claim C4. With an entropy source of zero bytes, the body of the
    request that the [findMe] command posts carries as ["reqId"] the
    standard base64 text of the 32 hex characters of the identifier
    (44 characters), not the identifier itself: [json.Marshal] encodes the
    [reqID] byte slice in base64. *)
Theorem findMe_body_reqId_base64 :
  map (fun cr => Body cr.2) (command Fixture.Client Fixture.zero_Client Fixture.Do Fixture.rand_read Fixture.now Fixture.Time_Format Fixture.unicode_lower Fixture.decode_Response "findMe" (Fixture.robot "ABC123") None).1 =
    [json_fields [("reqId", json_string "MDAwMDAwMDAwMDAwMDAwMDAwMDAwMDAwMDAwMDAwMDA="); ("cmd", json_string "findMe")]] /\
  json_fields [("reqId", json_string "MDAwMDAwMDAwMDAwMDAwMDAwMDAwMDAwMDAwMDAwMDA="); ("cmd", json_string "findMe")] <>
    json_fields [("reqId", json_string "00000000000000000000000000000000"); ("cmd", json_string "findMe")] /\
  String.length "MDAwMDAwMDAwMDAwMDAwMDAwMDAwMDAwMDAwMDAwMDA=" = 44 /\ String.length "00000000000000000000000000000000" = 32.
Proof.
  refine (conj _ (conj _ (conj eq_refl eq_refl))).
  - vm_compute. reflexivity.
  - vm_compute. intros H. discriminate H.
Qed.

(** Claim C6, counterexample: a session holding the token ["old-token"]
    refreshed against a server answering [{}]: [Refresh] reports no
    error and neither field is overwritten. *)
Lemma Refresh_keeps_token_on_empty_reply :
  let s := mkSession Fixture.Client "old-token" zero_Time tt in
  (Refresh Fixture.Client Fixture.Do Fixture.rand_read Fixture.pass_Get Fixture.json_parse Fixture.json_unquote Fixture.fold_match Fixture.parse_RFC3339 s).1.2 = Ok tt /\ (Refresh Fixture.Client Fixture.Do Fixture.rand_read Fixture.pass_Get Fixture.json_parse Fixture.json_unquote Fixture.fold_match Fixture.parse_RFC3339 s).2 = s.
Proof. vm_compute. split; reflexivity. Qed.

(** Claim C8, at the concrete runtime: the query of the one request
    [NewSession] sends. *)
Lemma NewSession_query_witness :
  exists req, (NewSession Fixture.Client Fixture.zero_Client Fixture.Do Fixture.rand_read Fixture.pass_Get Fixture.json_parse Fixture.json_unquote Fixture.fold_match Fixture.parse_RFC3339).1 = [(tt, req)] /\
    RawQuery (URL' req) = "email=a%40b.com&password=secret&platform=ios&token=0000000000000000000000000000000000000000000000000000000000000000".
Proof.
  destruct (NewSession_query Fixture.Client Fixture.zero_Client Fixture.Do Fixture.rand_read Fixture.pass_Get Fixture.json_parse Fixture.json_unquote Fixture.fold_match Fixture.parse_RFC3339 (fun _ => ascii_of_nat 0) eq_refl eq_refl)
    as (req & H1 & _ & _ & _ & _ & H2).
  exists req. split; [exact H1|]. rewrite H2. reflexivity.
Defined.

(** Claim C9, at a concrete input: the path of the request for the serial
    ["ABC123"]. *)
Lemma exec_path_and_signature_witness :
  clean_segment "ABC123" = true /\
  exists req, (exec Fixture.Client Fixture.zero_Client Fixture.Do Fixture.now Fixture.Time_Format Fixture.unicode_lower Fixture.decode_Response (Fixture.robot "ABC123") (mkRequest (Some "00000000000000000000000000000000") "findMe" None)).1 = [(tt, req)] /\
    Path (URL' req) = "/vendors/neato/robots/ABC123/messages".
Proof.
  refine (conj eq_refl _).
  destruct (exec_path_and_signature Fixture.Client Fixture.zero_Client Fixture.Do Fixture.now Fixture.Time_Format Fixture.unicode_lower Fixture.decode_Response (Fixture.robot "ABC123") (mkRequest (Some "00000000000000000000000000000000") "findMe" None))
    as (req & H1 & _ & _ & H2).
  exists req. split; [exact H1|]. rewrite (H2 eq_refl). reflexivity.
Defined.

(** Claim C9, counterexample: for the serial [..] the request goes to
    [/vendors/neato/messages], a path without the serial, as [path.Join]
    cleans the joined path. *)
Lemma exec_path_dotdot :
  map (fun cr => Path (URL' cr.2)) (exec Fixture.Client Fixture.zero_Client Fixture.Do Fixture.now Fixture.Time_Format Fixture.unicode_lower Fixture.decode_Response (Fixture.robot "..") (mkRequest (Some "00000000000000000000000000000000") "findMe" None)).1 =
    ["/vendors/neato/messages"].
Proof. vm_compute. reflexivity. Qed.

(** X1, at a concrete input: an entropy source that fails makes [FindMe]
    fail with its error before any request. *)
Lemma command_entropy_error_witness :
  (fun _ : nat => Err "entropy unavailable" : result (nat -> ascii)) idLength =
    Err "entropy unavailable" /\
  FindMe Fixture.Client Fixture.zero_Client Fixture.Do (fun _ => Err "entropy unavailable") Fixture.now Fixture.Time_Format Fixture.unicode_lower Fixture.decode_Response (Fixture.robot "ABC123") None =
    ([], Err "entropy unavailable").
Proof.
  split; [reflexivity|].
  apply (command_entropy_error Fixture.Client Fixture.zero_Client Fixture.Do (fun _ => Err "entropy unavailable") Fixture.now Fixture.Time_Format Fixture.unicode_lower Fixture.decode_Response "findMe" (Fixture.robot "ABC123") None "entropy unavailable").
  reflexivity.
Defined.

(** X4, at a concrete input: the map ["map1"] of the robot ["ABC123"]. *)
Lemma beehive_data_requests_witness :
  clean_segment "ABC123" = true /\ clean_segment "map1" = true /\
  exists req, (GetRobotMap Fixture.Client Fixture.Do unit (fun _ => Ok tt) (mkSession Fixture.Client "token" zero_Time tt) "ABC123" "map1").1 = [(tt, req)] /\
    URL' req = mkURL "https" beehiveHost "/users/me/robots/ABC123/maps/map1" "".
Proof.
  refine (conj eq_refl (conj eq_refl _)).
  destruct (beehive_data_requests Fixture.Client Fixture.Do unit unit unit (fun _ => Ok tt) (fun _ => Ok []) (fun _ => Ok tt) (fun _ => Ok []) (fun _ => Ok tt) (mkSession Fixture.Client "token" zero_Time tt) "ABC123" "map1" eq_refl eq_refl)
    as (_ & _ & (req & H1 & _ & H2 & _) & _).
  exists req. split; [exact H1|]. rewrite H2. reflexivity.
Defined.

(** X8, at a concrete input: a server answering [null] leaves the session
    as it was, without error. *)
Lemma Refresh_non_object_reply_witness :
  (Refresh Fixture.Client (fun _ _ => Ok "null") Fixture.rand_read Fixture.pass_Get (fun _ => Ok JNull) Fixture.json_unquote Fixture.fold_match Fixture.parse_RFC3339 (mkSession Fixture.Client "old-token" zero_Time tt)).2 = mkSession Fixture.Client "old-token" zero_Time tt /\
  (Refresh Fixture.Client (fun _ _ => Ok "null") Fixture.rand_read Fixture.pass_Get (fun _ => Ok JNull) Fixture.json_unquote Fixture.fold_match Fixture.parse_RFC3339 (mkSession Fixture.Client "old-token" zero_Time tt)).1.2 = Ok tt.
Proof.
  destruct (Refresh_non_object_reply Fixture.Client (fun _ _ => Ok "null") Fixture.rand_read Fixture.pass_Get (fun _ => Ok JNull) Fixture.json_unquote Fixture.fold_match Fixture.parse_RFC3339 (mkSession Fixture.Client "old-token" zero_Time tt)
              (fun _ => ascii_of_nat 0) (mkCredentials "a@b.com" "secret") "null" JNull
              eq_refl eq_refl (fun _ => eq_refl) eq_refl (fun kvs H => ltac:(discriminate H)))
    as [H1 H2].
  split; [exact H1 | apply H2; reflexivity].
Defined.
